(** * spark_env: extraction to and restoration from a columnar archive

    A shallow embedding of [extract_data.py] (relational source to Parquet,
    through Spark) and [restore_data.py] (Parquet to SQL Server, through
    DuckDB, pandas and SQLAlchemy), and the properties of the two pipelines.

    The Python functions become functions in a state-and-exception monad.
    The state holds what the external collaborators hold (the destination
    database, the open engine handles), a trace of the calls issued to them
    and the log; what the collaborators answer is read from a [World]
    record, so every theorem quantified over a world holds whatever the
    engines answer. *)

From Stdlib Require Import ZArith List String Ascii Lia.
From stdpp Require Import base gmap strings list pretty.

(** ** Python values and control flow *)

Module Py.

(** The exceptions the two scripts can end with. [SystemExit] is what
    [parser.error] raises (status 2, after printing the message); it is not
    an [Exception], so [except Exception] does not catch it. [DriverError]
    stands for whatever an external engine raises (py4j, duckdb.Error,
    sqlalchemy errors): none of them is one of the built-in classes above it. *)
Inductive exn : Type :=
| ValueError (msg : string)
| FileNotFoundError (msg : string)
| KeyError (key : string)
| SystemExit (status : Z) (msg : string)
| DriverError (msg : string).

Inductive result (A : Type) : Type :=
| Ok (a : A)
| Raise (e : exn).
Arguments Ok {A} a.
Arguments Raise {A} e.

Definition is_exception (e : exn) : bool :=
  match e with
  | SystemExit _ _ => false
  | _ => true
  end.

(** [str(e)]. *)
Definition exn_str (e : exn) : string :=
  match e with
  | ValueError msg | FileNotFoundError msg | SystemExit _ msg | DriverError msg => msg
  | KeyError key => "'" +:+ key +:+ "'"
  end.

(** A computation over a state [St] that returns or raises. *)
Definition M (St A : Type) : Type := St → result A * St.

#[global] Instance M_ret {St} : MRet (M St) :=
  λ A a st, (Ok a, st).

#[global] Instance M_bind {St} : MBind (M St) :=
  λ A B k m st,
    match m st with
    | (Ok a, st') => k a st'
    | (Raise e, st') => (Raise e, st')
    end.

Definition raise {St A} (e : exn) : M St A := λ st, (Raise e, st).

Definition modify {St} (f : St → St) : M St unit := λ st, (Ok tt, f st).

Definition gets {St A} (f : St → A) : M St A := λ st, (Ok (f st), st).

(** [try: body finally: fin]: [fin] runs on both exits; an exception of
    [fin] replaces the outcome of [body]. *)
Definition try_finally {St A} (body : M St A) (fin : M St unit) : M St A :=
  λ st,
    match body st with
    | (r, st1) =>
        match fin st1 with
        | (Ok _, st2) => (r, st2)
        | (Raise e, st2) => (Raise e, st2)
        end
    end.

(** [try: body except Exception as e: handler e]. *)
Definition try_except {St A} (body : M St A) (handler : exn → M St A) : M St A :=
  λ st,
    match body st with
    | (Ok a, st1) => (Ok a, st1)
    | (Raise e, st1) => if is_exception e then handler e st1 else (Raise e, st1)
    end.

(** [for x in l: body x]. *)
Fixpoint for_each {St A} (l : list A) (body : A → M St unit) : M St unit :=
  match l with
  | [] => mret tt
  | x :: l' => body x ;; for_each l' body
  end.

(** Truth value of an optional string ([None] and [''] are false). *)
Definition truthy (o : option string) : bool :=
  match o with
  | Some s => negb (String.eqb s "")
  | None => false
  end.

(** [str.lower] on the ASCII letters (the strings of the model are byte
    strings). *)
Definition lower_ascii (c : ascii) : ascii :=
  let n := nat_of_ascii c in
  if (65 <=? n)%nat && (n <=? 90)%nat then ascii_of_nat (n + 32) else c.

Fixpoint lower (s : string) : string :=
  match s with
  | EmptyString => EmptyString
  | String c s' => String (lower_ascii c) (lower s')
  end.

(** [str.upper], likewise. *)
Definition upper_ascii (c : ascii) : ascii :=
  let n := nat_of_ascii c in
  if (97 <=? n)%nat && (n <=? 122)%nat then ascii_of_nat (n - 32) else c.

Fixpoint upper (s : string) : string :=
  match s with
  | EmptyString => EmptyString
  | String c s' => String (upper_ascii c) (upper s')
  end.

(** [len(range(start, stop, step))] for a non-zero step, as CPython
    computes it. *)
Definition range_len (start stop step : Z) : Z :=
  if (0 <? step)%Z then
    if (start <? stop)%Z then ((stop - start - 1) `div` step + 1)%Z else 0%Z
  else
    if (stop <? start)%Z then ((start - stop - 1) `div` (- step) + 1)%Z else 0%Z.

(** [range(start, stop, step)]: a zero step is a [ValueError]. *)
Definition range (start stop step : Z) : result (list Z) :=
  if (step =? 0)%Z then Raise (ValueError "range() arg 3 must not be zero")
  else Ok (map (λ k : nat, (start + Z.of_nat k * step)%Z)
               (seq 0 (Z.to_nat (range_len start stop step)))).

(** A slice bound brought into [0, len]: a negative bound counts from the
    end. *)
Definition slice_bound (len i : Z) : nat :=
  Z.to_nat (if (i <? 0)%Z then Z.max 0 (i + len) else Z.min i len).

(** [l[i:j]] (and [df.iloc[i:j]] on the rows of a frame). *)
Definition slice {A} (l : list A) (i j : Z) : list A :=
  let len := Z.of_nat (length l) in
  let a := slice_bound len i in
  let b := slice_bound len j in
  take (b - a) (drop a l).

End Py.

Import Py.

(** A cell of a table. The transfers never inspect cells, only move them. *)
Inductive value : Type :=
| VInt (n : Z)
| VText (s : string)
| VNull.

Definition row : Type := list value.

Inductive Level : Type := INFO | WARNING | ERROR.

(** ** restore_data.py *)

Module Sql.

(** The SQLAlchemy column types [get_sql_data_type] returns. *)
Inductive type : Type :=
| Integer
| Float
| DATETIME2
| String (length : nat).

#[global] Instance type_eq_dec : EqDecision type.
Proof. solve_decision. Defined.

End Sql.

Module Restore.

(** The dtype of a pandas column: a numpy dtype (kind letter and width) or
    one of pandas' extension dtypes. *)
Inductive dtype : Type :=
| np_bool
| np_int (bits : N)
| np_uint (bits : N)
| np_float (bits : N)
| np_complex (bits : N)
| np_datetime64 (unit : string)
| np_timedelta64 (unit : string)
| np_object
| pd_Int (bits : N)
| pd_UInt (bits : N)
| pd_Float (bits : N)
| pd_boolean
| pd_string
| pd_category
| pd_datetimetz (unit tz : string)
| pd_period (freq : string)
| pd_interval.

(** [isinstance(dtype, ExtensionDtype)]. *)
Definition is_extension (d : dtype) : bool :=
  match d with
  | pd_Int _ | pd_UInt _ | pd_Float _ | pd_boolean | pd_string | pd_category
  | pd_datetimetz _ _ | pd_period _ | pd_interval => true
  | _ => false
  end.

(** [dtype.kind]. *)
Definition kind (d : dtype) : string :=
  match d with
  | np_bool | pd_boolean => "b"
  | np_int _ | pd_Int _ => "i"
  | np_uint _ | pd_UInt _ => "u"
  | np_float _ | pd_Float _ => "f"
  | np_complex _ => "c"
  | np_datetime64 _ | pd_datetimetz _ _ => "M"
  | np_timedelta64 _ => "m"
  | np_object | pd_string | pd_category | pd_period _ | pd_interval => "O"
  end.

(** [pd.api.types.is_integer_dtype]: the numpy integer kinds, signed or
    not, and the nullable integer extension dtypes; booleans and timedeltas
    are not integers. *)
Definition is_integer_dtype (d : dtype) : bool :=
  String.eqb (kind d) "i" || String.eqb (kind d) "u".

(** [pd.api.types.is_float_dtype]. *)
Definition is_float_dtype (d : dtype) : bool :=
  String.eqb (kind d) "f".

(** [pd.api.types.is_datetime64_dtype]: a numpy [datetime64] only; the
    timezone-aware [DatetimeTZDtype] is an extension dtype and answers
    [False]. *)
Definition is_datetime64_dtype (d : dtype) : bool :=
  negb (is_extension d) && String.eqb (kind d) "M".

(** restore_data.py, [get_sql_data_type]. *)
Definition get_sql_data_type (pandas_dtype : dtype) (column_name : string) : Sql.type :=
  if is_integer_dtype pandas_dtype then Sql.Integer
  else if is_float_dtype pandas_dtype then Sql.Float
  else if is_datetime64_dtype pandas_dtype then Sql.DATETIME2
  else Sql.String 255.

(** A pandas DataFrame: the columns with their dtypes, in order
    ([df.dtypes.items()]), and the rows. *)
Record DataFrame : Type := {
  dtypes : list (string * dtype);
  rows : list row
}.

(** A table of the destination database. *)
Record DbTable : Type := {
  t_columns : list (string * Sql.type);
  t_rows : list row
}.

(** A SQLAlchemy [Table] object: name, schema as given, columns. *)
Record Table : Type := {
  tbl_name : string;
  tbl_schema : option string;
  tbl_columns : list (string * Sql.type)
}.

(** Calls issued to the engines, oldest first. [Insert] is a [to_sql] that
    appended its rows. *)
Inductive Event : Type :=
| DuckConnect (database_path : string)
| DuckExecute (sql : string)
| DuckClose
| DropTable (key : string * string)
| CreateTable (key : string * string) (columns : list (string * Sql.type))
| Insert (key : string * string) (batch : list row).

(** The destination database maps (schema, table name) to the table. *)
Record State : Type := {
  db : gmap (string * string) DbTable;
  duck_open : nat;
  sql_calls : nat;
  trace : list Event;
  log : list (Level * string)
}.

Definition set_db (f : gmap (string * string) DbTable → gmap (string * string) DbTable)
    (st : State) : State :=
  {| db := f (db st); duck_open := duck_open st; sql_calls := sql_calls st;
     trace := trace st; log := log st |}.

Definition set_duck_open (f : nat → nat) (st : State) : State :=
  {| db := db st; duck_open := f (duck_open st); sql_calls := sql_calls st;
     trace := trace st; log := log st |}.

Definition set_sql_calls (f : nat → nat) (st : State) : State :=
  {| db := db st; duck_open := duck_open st; sql_calls := f (sql_calls st);
     trace := trace st; log := log st |}.

Definition emit (e : Event) (st : State) : State :=
  {| db := db st; duck_open := duck_open st; sql_calls := sql_calls st;
     trace := trace st ++ [e]; log := log st |}.

Definition add_log (lvl : Level) (msg : string) (st : State) : State :=
  {| db := db st; duck_open := duck_open st; sql_calls := sql_calls st;
     trace := trace st; log := log st ++ [(lvl, msg)] |}.

(** What the environment answers during one run. *)
Record World : Type := {
  (** [os.path.exists] *)
  path_exists : string → bool;
  (** [conn.execute(sql).fetchdf()]: a frame, or the engine's error *)
  duck_execute : string → DataFrame + string;
  (** the schema an unqualified table name resolves to *)
  default_schema : string;
  (** the error, if any, of the k-th [to_sql] call of the run *)
  to_sql_error : nat → option string;
  (** the columns pandas gives a table that [to_sql] has to create itself *)
  pandas_columns : DataFrame → list (string * Sql.type)
}.

(** [s.replace(a, b)] for single characters. *)
Fixpoint replace_char (a b : ascii) (s : string) : string :=
  match s with
  | EmptyString => EmptyString
  | String c s' => String (if Ascii.eqb c a then b else c) (replace_char a b s')
  end.

(** SQLAlchemy's key of a table in [metadata.tables]: the bare name when
    the schema is [None], otherwise [schema.name]. *)
Definition table_key (name : string) (schema : option string) : string :=
  match schema with
  | None => name
  | Some s => s +:+ "." +:+ name
  end.

Section Operations.

Context (w : World).

Definition logger_info (msg : string) : M State unit := modify (add_log INFO msg).

Definition logger_error (msg : string) : M State unit := modify (add_log ERROR msg).

(** restore_data.py, [connect_to_duckdb]. *)
Definition connect_to_duckdb (database_path : string) : M State unit :=
  logger_info ("Connecting to DuckDB at " +:+ database_path) ;;
  modify (λ st, emit (DuckConnect database_path) (set_duck_open S st)).

(** [conn.execute(sql)] (followed by [fetchdf()] where the source reads the
    result). The statement is issued, then the engine answers. *)
Definition conn_execute (sql : string) : M State DataFrame :=
  modify (emit (DuckExecute sql)) ;;
  match duck_execute w sql with
  | inl df => mret df
  | inr msg => raise (DriverError msg)
  end.

(** [conn.close()]. *)
Definition conn_close : M State unit :=
  modify (λ st, emit DuckClose (set_duck_open Nat.pred st)).

(** restore_data.py, [load_parquet_to_pandas]. *)
Definition load_parquet_to_pandas (parquet_path : string) : M State DataFrame :=
  logger_info ("Loading Parquet data from " +:+ parquet_path) ;;
  (if negb (path_exists w parquet_path)
   then raise (FileNotFoundError ("Parquet path not found: " +:+ parquet_path))
   else mret tt) ;;
  connect_to_duckdb ":memory:" ;;
  try_finally
    (df ← conn_execute ("SELECT * FROM read_parquet('" +:+ parquet_path +:+ "')") ;
     logger_info ("Loaded " +:+ pretty (length (rows df)) +:+ " rows from Parquet") ;;
     mret df)
    conn_close.

(** restore_data.py, [create_sqlalchemy_engine]. The engine connects
    lazily: building it issues nothing. *)
Definition create_sqlalchemy_engine (server database username password driver : string)
    : M State string :=
  logger_info ("Creating connection to SQL Server: " +:+ server +:+ ", Database: " +:+ database) ;;
  mret ("mssql+pyodbc://" +:+ username +:+ ":" +:+ password +:+ "@" +:+ server +:+ "/"
        +:+ database +:+ "?driver=" +:+ replace_char " " "+" driver).

(** The schema a statement runs against: the connection's default one when
    none (or an empty one) is given. *)
Definition resolve (schema : option string) : string :=
  if truthy schema then default "" schema else default_schema w.

(** [inspector.get_table_names(schema=schema)]. *)
Definition get_table_names (schema : option string) (tables : gmap (string * string) DbTable)
    : list string :=
  (λ kv, kv.1.2) <$> filter (λ kv, kv.1.1 = resolve schema) (map_to_list tables).

(** [metadata.reflect(bind=engine, only=names, schema=schema)] on a fresh
    [MetaData()]: every requested table is loaded under its SQLAlchemy key;
    a requested table the schema does not have is an error. The result is
    [metadata.tables]. The tables of the model carry no foreign keys, so no
    other table comes along. *)
Fixpoint reflect (only : list string) (schema : option string) : M State (gmap string Table) :=
  match only with
  | [] => mret ∅
  | name :: only' =>
      tables ← gets db ;
      match tables !! (resolve schema, name) with
      | None =>
          raise (DriverError ("Could not reflect: requested table(s) not available: "
                              +:+ name))
      | Some t =>
          md ← reflect only' schema ;
          mret (<[table_key name schema :=
                   {| tbl_name := name; tbl_schema := schema; tbl_columns := t_columns t |}]> md)
      end
  end.

(** [table.drop(engine)]: DROP TABLE, without an existence check. *)
Definition table_drop (t : Table) : M State unit :=
  let key := (resolve (tbl_schema t), tbl_name t) in
  tables ← gets db ;
  match tables !! key with
  | None =>
      raise (DriverError ("Cannot drop the table, because it does not exist: "
                          +:+ tbl_name t))
  | Some _ => modify (λ st, emit (DropTable key) (set_db (delete key) st))
  end.

(** CREATE TABLE for one table of [metadata.create_all(engine)], whose
    [checkfirst] defaults to true: a table the database already has is
    left as it is. *)
Definition create_checkfirst (t : Table) : M State unit :=
  let key := (resolve (tbl_schema t), tbl_name t) in
  tables ← gets db ;
  match tables !! key with
  | Some _ => mret tt
  | None =>
      modify (λ st, emit (CreateTable key (tbl_columns t))
                      (set_db (insert key {| t_columns := tbl_columns t; t_rows := [] |}) st))
  end.

(** [metadata.create_all(engine)]. *)
Definition create_all (md : gmap string Table) : M State unit :=
  for_each (map_to_list md) (λ kt, create_checkfirst kt.2).

(** restore_data.py, [create_table_if_not_exists]. The local variable
    [table_exists] is the value the first block returns. *)
Definition create_table_if_not_exists (engine : string) (df : DataFrame)
    (table_name : string) (schema : option string) (if_exists : string) : M State unit :=
  logger_info ("Checking if table " +:+ table_name +:+ " exists") ;;
  names ← gets (λ st, get_table_names schema (db st)) ;
  let table_exists := bool_decide (table_name ∈ names) in
  table_exists ←
    (if table_exists then
       if String.eqb if_exists "fail" then
         raise (ValueError ("Table " +:+ table_name +:+ " already exists"))
       else if String.eqb if_exists "replace" then
         logger_info ("Dropping existing table " +:+ table_name) ;;
         metadata_tables ← reflect [table_name] schema ;
         (if bool_decide (is_Some (metadata_tables !! table_name)) then
            let key := if truthy schema
                       then default "" schema +:+ "." +:+ table_name
                       else table_name in
            match metadata_tables !! key with
            | Some t => table_drop t
            | None => raise (KeyError key)
            end
          else mret tt) ;;
         mret false
       else mret table_exists
     else mret table_exists) ;
  if negb table_exists || String.eqb if_exists "replace" then
    logger_info ("Creating table " +:+ table_name) ;;
    let columns := (λ cd : string * dtype, (cd.1, get_sql_data_type cd.2 cd.1)) <$> dtypes df in
    let table := {| tbl_name := table_name; tbl_schema := schema; tbl_columns := columns |} in
    create_all {[ table_key table_name schema := table ]} ;;
    logger_info ("Created table " +:+ table_name +:+ " with "
                 +:+ pretty (length columns) +:+ " columns")
  else mret tt.

(** [batch_df.to_sql(name=..., schema=..., con=engine, if_exists='append',
    index=False, chunksize=batch_size)]. The batch has at most [chunksize]
    rows, so it is one INSERT, run in one transaction: it appends all its
    rows or, when the driver fails, none. A missing table is created by
    pandas first. *)
Definition to_sql (batch_df : DataFrame) (name : string) (schema : option string)
    : M State unit :=
  k ← gets sql_calls ;
  modify (set_sql_calls S) ;;
  match to_sql_error w k with
  | Some msg => raise (DriverError msg)
  | None =>
      let key := (resolve schema, name) in
      modify (λ st,
        let t := default {| t_columns := pandas_columns w batch_df; t_rows := [] |}
                         (db st !! key) in
        emit (Insert key (rows batch_df))
          (set_db (insert key {| t_columns := t_columns t;
                                 t_rows := t_rows t ++ rows batch_df |}) st))
  end.

(** [df.iloc[i:j]]. *)
Definition iloc (df : DataFrame) (i j : Z) : DataFrame :=
  {| dtypes := dtypes df; rows := Py.slice (rows df) i j |}.

(** The default of [batch_size], in [insert_data_to_sql]'s signature and
    in the command line. *)
Definition default_batch_size : Z := 1000.

Definition lift {A} (r : result A) : M State A := λ st, (r, st).

(** The body of the loop of [insert_data_to_sql], for the offset [i]. *)
Definition insert_batch (df : DataFrame) (table_name : string) (schema : option string)
    (batch_size total_rows i : Z) : M State unit :=
  let batch_end := Z.min (i + batch_size) total_rows in
  logger_info ("Inserting batch " +:+ pretty (i `div` batch_size + 1)%Z +:+ "/"
               +:+ pretty ((total_rows + batch_size - 1) `div` batch_size)%Z
               +:+ ": rows " +:+ pretty i +:+ " to " +:+ pretty batch_end) ;;
  let batch_df := iloc df i batch_end in
  if truthy schema then to_sql batch_df table_name schema
  else to_sql batch_df table_name None.

(** restore_data.py, [insert_data_to_sql]. *)
Definition insert_data_to_sql (engine : string) (df : DataFrame) (table_name : string)
    (schema : option string) (batch_size : Z) (if_exists : string) : M State unit :=
  logger_info ("Beginning data insertion to " +:+ table_name) ;;
  create_table_if_not_exists engine df table_name schema if_exists ;;
  let total_rows := Z.of_nat (length (rows df)) in
  logger_info ("Preparing to insert " +:+ pretty total_rows +:+ " rows") ;;
  offsets ← lift (Py.range 0 total_rows batch_size) ;
  for_each offsets (insert_batch df table_name schema batch_size total_rows) ;;
  logger_info ("Successfully inserted " +:+ pretty total_rows +:+ " rows into " +:+ table_name).

(** The parsed command line of restore_data.py. *)
Record Args : Type := {
  parquet_path : string;
  server : string;
  database : string;
  username : string;
  password : string;
  driver : string;
  table_name : string;
  schema : option string;
  if_exists : string;
  batch_size : Z;
  transform_query : option string
}.

(** The statement [main] runs to expose the archive as [parquet_view]. *)
Definition view_statement (parquet_path : string) : string :=
  "CREATE VIEW parquet_view AS SELECT * FROM read_parquet('" +:+ parquet_path +:+ "')".

(** What [parser.parse_args()] checks of the values modelled here: the
    [choices] of [--if-exists]. A refused command line ends the process
    with status 2. *)
Definition parse_args (cli : Args) : M State Args :=
  if bool_decide (if_exists cli ∈ ["fail"; "replace"; "append"]) then mret cli
  else raise (SystemExit 2 ("argument --if-exists: invalid choice: '" +:+ if_exists cli +:+ "'")).

(** restore_data.py, [main]. *)
Definition main (cli : Args) : M State unit :=
  args ← parse_args cli ;
  try_except
    (df ←
       (if truthy (transform_query args) then
          let query := default "" (transform_query args) in
          logger_info ("Applying transformation query: " +:+ query) ;;
          connect_to_duckdb ":memory:" ;;
          conn_execute (view_statement (parquet_path args)) ;;
          df ← conn_execute query ;
          conn_close ;;
          mret df
        else load_parquet_to_pandas (parquet_path args)) ;
     engine ← create_sqlalchemy_engine (server args) (database args) (username args)
                (password args) (driver args) ;
     insert_data_to_sql engine df (table_name args) (schema args) (batch_size args)
       (if_exists args) ;;
     logger_info "Data restoration completed successfully")
    (λ e, logger_error ("Error during restoration process: " +:+ exn_str e) ;; raise e).

End Operations.

End Restore.

(** ** extract_data.py *)

Module Extract.

(** A Spark DataFrame: column names in order, and rows. *)
Record DataFrame : Type := {
  columns : list string;
  rows : list row
}.

(** Calls issued to Spark, oldest first. [JdbcRead] is the read against the
    relational endpoint; [ParquetWrite] carries the compression option, the
    [partitionBy] columns when given, the save mode and the frame written. *)
Inductive Event : Type :=
| SparkGetOrCreate (app_name : string)
| JdbcRead (url : string) (table : option string) (properties : list (string * string))
| ParquetWrite (output_path compression : string) (partition_by : option (list string))
    (mode : string) (df : DataFrame)
| SparkStop.

(** [session_active]: a Spark session is running. [spark]: [main]'s local
    variable [spark] is not [None] (the [finally] block reads it). *)
Record State : Type := {
  session_active : bool;
  spark : bool;
  trace : list Event;
  log : list (Level * string)
}.

Definition set_session (active var : bool) (st : State) : State :=
  {| session_active := active; spark := var; trace := trace st; log := log st |}.

Definition emit (e : Event) (st : State) : State :=
  {| session_active := session_active st; spark := spark st;
     trace := trace st ++ [e]; log := log st |}.

Definition add_log (lvl : Level) (msg : string) (st : State) : State :=
  {| session_active := session_active st; spark := spark st;
     trace := trace st; log := log st ++ [(lvl, msg)] |}.

(** What the environment answers during one run. *)
Record World : Type := {
  (** the error, if any, of [SparkSession.builder...getOrCreate()] *)
  session_error : option string;
  (** [spark.read.jdbc(url, table, properties)] and the count job on it *)
  jdbc : string → option string → list (string * string) → DataFrame + string;
  (** [datetime.now().strftime('%Y-%m-%d %H:%M:%S')] *)
  now : string;
  (** the error, if any, of the Parquet write *)
  parquet_error : string → string → option (list string) → DataFrame → option string
}.

(** The parsed command line of extract_data.py; the connection parameters
    default to the environment and may be missing. *)
Record Args : Type := {
  server : option string;
  database : option string;
  username : option string;
  password : option string;
  table : option string;
  query : option string;
  output_path : string;
  compression : string;
  partition_by : option (list string);
  app_name : string
}.

(** [valid_methods] of [save_as_parquet]; the [choices] of [--compression]
    are the same list. *)
Definition valid_methods : list string := ["snappy"; "gzip"; "lzo"; "zstd"; "none"].

(** The name resolver of the session. [get_spark_session] leaves
    [spark.sql.caseSensitive] at its default, false, under which two names
    are the same when they are equal up to letter case
    ([a.equalsIgnoreCase(b)]; here on the ASCII letters, the strings of the
    model being byte strings). *)
Definition resolver (a b : string) : bool := bool_decide (lower a = lower b).

(** [df.withColumn(name, lit(v))]: every column the resolver identifies
    with [name] is replaced where it stands, by a column called [name] as
    given and holding [v]; when there is none, the column is added last. *)
Definition withColumn (df : DataFrame) (name : string) (v : value) : DataFrame :=
  if existsb (λ c, resolver c name) (columns df) then
    {| columns := (λ c, if resolver c name then name else c) <$> columns df;
       rows := (λ r, zip_with (λ c x, if resolver c name then v else x) (columns df) r)
               <$> rows df |}
  else
    {| columns := columns df ++ [name]; rows := (λ r, r ++ [v]) <$> rows df |}.

(** Truth value of an optional list ([None] and [[]] are false). *)
Definition truthy_list {A} (o : option (list A)) : bool :=
  match o with
  | Some (_ :: _) => true
  | _ => false
  end.

(** [parser.error(msg)]: usage and message on stderr, exit status 2. *)
Definition parser_error {A} (msg : string) : M State A := raise (SystemExit 2 msg).

(** The local [jdbc_url] of [extract_from_sql_server]. *)
Definition jdbc_url (server database : string) : string :=
  "jdbc:sqlserver://" +:+ server +:+ ";databaseName=" +:+ database
  +:+ ";trustServerCertificate=true".

(** The local [connection_properties] of [extract_from_sql_server]. *)
Definition connection_properties (username password : string) : list (string * string) :=
  [("driver", "com.microsoft.sqlserver.jdbc.SQLServerDriver");
   ("user", username); ("password", password)].

Section Operations.

Context (w : World).

Definition logger_info (msg : string) : M State unit := modify (add_log INFO msg).

Definition logger_warning (msg : string) : M State unit := modify (add_log WARNING msg).

Definition logger_error (msg : string) : M State unit := modify (add_log ERROR msg).

(** extract_data.py, [get_spark_session]. *)
Definition get_spark_session (app_name : string) : M State unit :=
  modify (emit (SparkGetOrCreate app_name)) ;;
  match session_error w with
  | Some msg => raise (DriverError msg)
  | None => modify (λ st, set_session true (spark st) st)
  end.

(** [spark.read.jdbc(url=..., table=..., properties=...)]. *)
Definition spark_read_jdbc (url : string) (table : option string)
    (properties : list (string * string)) : M State DataFrame :=
  modify (emit (JdbcRead url table properties)) ;;
  match jdbc w url table properties with
  | inl df => mret df
  | inr msg => raise (DriverError msg)
  end.

(** extract_data.py, [extract_from_sql_server]. *)
Definition extract_from_sql_server (server database : string) (table : option string)
    (username password : string) (query : option string) : M State DataFrame :=
  logger_info ("Extracting data from " +:+ database +:+ "."
               +:+ (if truthy table then default "" table else "custom query")) ;;
  let jdbc_url := jdbc_url server database in
  let connection_properties := connection_properties username password in
  df ← (if truthy query then
          spark_read_jdbc jdbc_url (Some ("(" +:+ default "" query +:+ ") AS custom_query"))
            connection_properties
        else
          spark_read_jdbc jdbc_url table connection_properties) ;
  let row_count := length (rows df) in
  logger_info ("Extracted " +:+ pretty row_count +:+ " rows from source") ;;
  mret df.

(** [df.write.option('compression', c)[.partitionBy(cols)].mode(m).parquet(path)]. *)
Definition write_parquet (df : DataFrame) (compression : string)
    (partition_by : option (list string)) (mode output_path : string) : M State unit :=
  modify (emit (ParquetWrite output_path compression partition_by mode df)) ;;
  match parquet_error w output_path compression partition_by df with
  | Some msg => raise (DriverError msg)
  | None => mret tt
  end.

(** extract_data.py, [save_as_parquet]. *)
Definition save_as_parquet (df : DataFrame) (output_path compression_method : string)
    (partition_columns : option (list string)) : M State unit :=
  logger_info ("Saving data as Parquet with " +:+ compression_method +:+ " compression") ;;
  compression_method ←
    (if negb (bool_decide (lower compression_method ∈ valid_methods)) then
       logger_warning ("Invalid compression method: " +:+ compression_method
                       +:+ ". Using snappy instead.") ;;
       mret "snappy"
     else mret compression_method) ;
  let df_with_timestamp := withColumn df "extraction_timestamp" (VText (now w)) in
  (if truthy_list partition_columns then
     write_parquet df_with_timestamp compression_method partition_columns "overwrite" output_path
   else
     write_parquet df_with_timestamp compression_method None "overwrite" output_path) ;;
  logger_info ("Data saved to " +:+ output_path).

(** What [parser.parse_args()] checks of the values modelled here: the
    [choices] of [--compression]. *)
Definition parse_args (cli : Args) : M State Args :=
  if bool_decide (compression cli ∈ valid_methods) then mret cli
  else parser_error ("argument --compression: invalid choice: '" +:+ compression cli +:+ "'").

(** [spark.stop()]. *)
Definition spark_stop : M State unit :=
  modify (λ st, emit SparkStop (set_session false (spark st) st)).

(** extract_data.py, [main]. *)
Definition main (cli : Args) : M State unit :=
  args ← parse_args cli ;
  (if negb (truthy (table args)) && negb (truthy (query args)) then
     parser_error "Either --table or --query must be specified"
   else mret tt) ;;
  for_each [("server", server args); ("database", database args);
            ("username", username args); ("password", password args)]
    (λ p : string * option string,
       if negb (truthy p.2) then
         parser_error ("Missing SQL Server parameter: " +:+ p.1 +:+ ". Provide it with --"
                       +:+ p.1 +:+ " or set " +:+ upper p.1 +:+ " in .env file")
       else mret tt) ;;
  modify (λ st, set_session (session_active st) false st) ;;
  try_finally
    (try_except
       (logger_info ("Creating Spark session with app name: " +:+ app_name args) ;;
        get_spark_session (app_name args) ;;
        modify (λ st, set_session (session_active st) true st) ;;
        df ← extract_from_sql_server (default "" (server args)) (default "" (database args))
               (table args) (default "" (username args)) (default "" (password args))
               (query args) ;
        save_as_parquet df (output_path args) (compression args) (partition_by args) ;;
        logger_info "Data extraction and saving completed successfully")
       (λ e, logger_error ("Error during extraction process: " +:+ exn_str e) ;;
             raise e))
    (gets spark ≫= λ is_set : bool,
       if is_set then spark_stop ;; logger_info "Spark session stopped" else mret tt).

End Operations.

End Extract.

(** *** The command line of extract_data.py *)

Module ExtractCli.
Import Extract.

(** The flags as typed: [None] for a flag left out. [--output-path] is
    required. *)
Record Flags : Type := {
  flag_server : option string;
  flag_database : option string;
  flag_username : option string;
  flag_password : option string;
  flag_table : option string;
  flag_query : option string;
  flag_output_path : string;
  flag_compression : option string;
  flag_partition_by : option (list string);
  flag_app_name : option string
}.

(** [os.getenv(name)], on [os.environ] as [load_dotenv()] left it. *)
Definition getenv (environ : gmap string string) (name : string) : option string :=
  environ !! name.

(** The value of an option: the flag when given, else the default. *)
Definition or_default {A} (flag : option A) (default_value : option A) : option A :=
  match flag with
  | Some v => Some v
  | None => default_value
  end.

(** The namespace [parse_args] builds from the flags: the [default=] of
    each [add_argument] of [main] fills what was left out. *)
Definition with_defaults (environ : gmap string string) (flags : Flags) : Args :=
  {| server := or_default (flag_server flags) (getenv environ "SQL_SERVER");
     database := or_default (flag_database flags) (getenv environ "SQL_DATABASE");
     username := or_default (flag_username flags) (getenv environ "SQL_USERNAME");
     password := or_default (flag_password flags) (getenv environ "SQL_PASSWORD");
     table := flag_table flags;
     query := flag_query flags;
     output_path := flag_output_path flags;
     compression := default "snappy" (flag_compression flags);
     partition_by := flag_partition_by flags;
     app_name := default "SQL-to-Parquet" (flag_app_name flags) |}.

(** extract_data.py run on an environment and a command line. *)
Definition run (w : World) (environ : gmap string string) (flags : Flags) : M State unit :=
  main w (with_defaults environ flags).

End ExtractCli.

(** ** Vocabulary of the statements *)

(** A computation that only moves the state along [R] and only raises
    exceptions of the class [E]. *)
Definition within {St A} (R : relation St) (E : exn → Prop) (m : M St A) : Prop :=
  ∀ st, R st (m st).2 ∧ ∀ e, (m st).1 = Raise e → E e.

(** The messages logged at level ERROR, oldest first. *)
Definition errors (l : list (Level * string)) : list string :=
  omap (λ p : Level * string, match p.1 with ERROR => Some p.2 | _ => None end) l.

Module RestoreSpec.
Import Restore.

(** The rows [batch_df] holds at each turn of the loop of
    [insert_data_to_sql], in order: the slices taken at the offsets of the
    range. *)
Definition batches_of (df : DataFrame) (batch_size : Z) : list (list row) :=
  let total_rows := Z.of_nat (length (rows df)) in
  match Py.range 0 total_rows batch_size with
  | Ok offsets => (λ i, rows (iloc df i (Z.min (i + batch_size) total_rows))) <$> offsets
  | Raise _ => []
  end.

(** The rows a destination table holds (none when it does not exist). *)
Definition rows_of (st : State) (key : string * string) : list row :=
  match db st !! key with
  | Some t => t_rows t
  | None => []
  end.

(** The [k]-th run of [b] consecutive elements of a list. *)
Definition chunk_at {A} (b : nat) (l : list A) (k : nat) : list A := take b (drop (k * b) l).

(** The trace only grows. *)
Definition grows (st st' : State) : Prop := trace st `prefix_of` trace st'.

(** The destination is as it was: same tables, no further [to_sql]. *)
Definition untouched (st st' : State) : Prop :=
  db st' = db st ∧ sql_calls st' = sql_calls st.

(** Every exception but the location-not-found one. *)
Definition not_path_error (e : exn) : Prop :=
  match e with
  | FileNotFoundError _ => False
  | _ => True
  end.

Definition any_error (e : exn) : Prop := True.

(** The columns [create_table_if_not_exists] gives a new table: one per
    column of the frame, in order, typed by [get_sql_data_type]. *)
Definition mapped_columns (df : DataFrame) : list (string * Sql.type) :=
  (λ cd : string * dtype, (cd.1, get_sql_data_type cd.2 cd.1)) <$> dtypes df.

(** A table created for a frame and holding exactly its rows. *)
Definition filled (df : DataFrame) : DbTable :=
  {| t_columns := mapped_columns df; t_rows := rows df |}.

(** Every table but the one under [key] is as it was. *)
Definition others_kept (key : string * string) (st st' : State) : Prop :=
  ∀ key', key' ≠ key → db st' !! key' = db st !! key'.

(** Calls to DuckDB, and calls to the destination database. *)
Definition is_duck (e : Event) : Prop :=
  match e with
  | DuckConnect _ | DuckExecute _ | DuckClose => True
  | _ => False
  end.

Definition is_destination (e : Event) : Prop :=
  match e with
  | DropTable _ | CreateTable _ _ | Insert _ _ => True
  | _ => False
  end.

(** The state moved on by calls of the class [P] only. *)
Definition extended_by (P : Event → Prop) (st st' : State) : Prop :=
  ∃ evs, trace st' = trace st ++ evs ∧ Forall P evs.

(** Nothing was logged at level ERROR. *)
Definition no_error_logged (st st' : State) : Prop :=
  errors (log st') = errors (log st).

(** The exceptions [except Exception] catches. *)
Definition caught (e : exn) : Prop := is_exception e = true.

(** As many DuckDB connections are open after as before. *)
Definition handles_kept (st st' : State) : Prop := duck_open st' = duck_open st.

(** The progress line of batch number [k] (counted from 0) of a frame of [N]
    rows inserted [B] rows at a time. *)
Definition progress_line (B N : Z) (k : nat) : Level * string :=
  (INFO, "Inserting batch " +:+ pretty (Z.of_nat k + 1)%Z +:+ "/"
         +:+ pretty ((N + B - 1) `div` B)%Z
         +:+ ": rows " +:+ pretty (Z.of_nat k * B)%Z
         +:+ " to " +:+ pretty (Z.min (Z.of_nat k * B + B) N)).

End RestoreSpec.

Module ExtractSpec.
Import Extract.

(** The messages logged at level WARNING, oldest first. *)
Definition warnings (l : list (Level * string)) : list string :=
  omap (λ p : Level * string, match p.1 with WARNING => Some p.2 | _ => None end) l.

(** The shapes a run's engine calls can take: nothing; a session that is
    never used; session, read, stop; session, read, one overwriting write,
    stop. *)
Definition linear (app : string) (evs : list Event) : Prop :=
  evs = []
  ∨ evs = [SparkGetOrCreate app]
  ∨ (∃ url t props, evs = [SparkGetOrCreate app; JdbcRead url t props; SparkStop])
  ∨ (∃ url t props path codec parts d,
       evs = [SparkGetOrCreate app; JdbcRead url t props;
              ParquetWrite path codec parts "overwrite" d; SparkStop]).

(** The four connection parameters, in the order [main] checks them. *)
Definition connection_parameters (args : Args) : list (string * option string) :=
  [("server", server args); ("database", database args);
   ("username", username args); ("password", password args)].

Definition missing_parameter_message (name : string) : string :=
  "Missing SQL Server parameter: " +:+ name +:+ ". Provide it with --" +:+ name
  +:+ " or set " +:+ upper name +:+ " in .env file".

(** Every row has one value for each column. *)
Definition rectangular (df : DataFrame) : Prop :=
  Forall (λ r : row, length r = length (columns df)) (rows df).

(** The value of row [i] under the column at position [j]. *)
Definition cell (df : DataFrame) (i j : nat) : option value :=
  rows df !! i ≫= (.!! j).

End ExtractSpec.

(** ** Concrete runs *)

Module Demo.

(** Five rows of an [orders] archive. *)
Definition orders : Restore.DataFrame :=
  {| Restore.dtypes := [("id", Restore.np_int 64); ("note", Restore.np_object)];
     Restore.rows := [[VInt 1; VText "a"]; [VInt 2; VText "b"]; [VInt 3; VText "c"];
                      [VInt 4; VText "d"]; [VInt 5; VNull]] |}.

(** The destination already has [dbo.orders], with one row. *)
Definition old_orders : Restore.DbTable :=
  {| Restore.t_columns := [("id", Sql.Integer); ("note", Sql.String 255)];
     Restore.t_rows := [[VInt 0; VText "old"]] |}.

Definition destination : Restore.State :=
  {| Restore.db := {[ ("dbo", "orders") := old_orders ]};
     Restore.duck_open := 0; Restore.sql_calls := 0;
     Restore.trace := []; Restore.log := [] |}.

(** A destination that has no table yet. *)
Definition empty_destination : Restore.State :=
  {| Restore.db := ∅;
     Restore.duck_open := 0; Restore.sql_calls := 0;
     Restore.trace := []; Restore.log := [] |}.

(** A destination that has [dbo.customers] beside [dbo.orders]. *)
Definition customers : Restore.DbTable :=
  {| Restore.t_columns := [("id", Sql.Integer)];
     Restore.t_rows := [[VInt 7]; [VInt 8]] |}.

Definition two_tables : Restore.State :=
  {| Restore.db := {[ ("dbo", "orders") := old_orders; ("dbo", "customers") := customers ]};
     Restore.duck_open := 0; Restore.sql_calls := 0;
     Restore.trace := []; Restore.log := [] |}.

(** An archive with the columns of [orders] and no row. *)
Definition no_orders : Restore.DataFrame :=
  {| Restore.dtypes := Restore.dtypes orders; Restore.rows := [] |}.

(** Everything answers; the archive holds [orders]. *)
Definition steady : Restore.World :=
  {| Restore.path_exists := λ _, true;
     Restore.duck_execute := λ _, inl orders;
     Restore.default_schema := "dbo";
     Restore.to_sql_error := λ _, None;
     Restore.pandas_columns := λ _, [] |}.

(** The second [to_sql] call of the run loses the connection. *)
Definition drops_second_call : Restore.World :=
  {| Restore.path_exists := λ _, true;
     Restore.duck_execute := λ _, inl orders;
     Restore.default_schema := "dbo";
     Restore.to_sql_error := λ k, if (k =? 1)%nat then Some "connection lost" else None;
     Restore.pandas_columns := λ _, [] |}.

(** No archive at the path: DuckDB finds no file to read. *)
Definition no_archive : Restore.World :=
  {| Restore.path_exists := λ _, false;
     Restore.duck_execute := λ _, inr "IO Error: No files found that match the pattern";
     Restore.default_schema := "dbo";
     Restore.to_sql_error := λ _, None;
     Restore.pandas_columns := λ _, [] |}.

(** The archive is there; the transformation query does not parse. *)
Definition rejects_query : Restore.World :=
  {| Restore.path_exists := λ _, true;
     Restore.duck_execute := λ sql,
       if String.prefix "CREATE VIEW" sql then inl orders
       else inr "Parser Error: syntax error at or near SELEC";
     Restore.default_schema := "dbo";
     Restore.to_sql_error := λ _, None;
     Restore.pandas_columns := λ _, [] |}.

(** [restore_data.py --parquet-path /data/orders --table-name orders ...]. *)
Definition restore_cli (policy : string) (transform_query : option string) : Restore.Args :=
  {| Restore.parquet_path := "/data/orders";
     Restore.server := "db1"; Restore.database := "sales";
     Restore.username := "etl"; Restore.password := "secret";
     Restore.driver := "ODBC Driver 17 for SQL Server";
     Restore.table_name := "orders"; Restore.schema := None;
     Restore.if_exists := policy; Restore.batch_size := 1000;
     Restore.transform_query := transform_query |}.

(** The same with [--transform-query], into a destination where the table
    may be missing; and without one, under the policy [fail]. *)
Definition query_cli : Restore.Args :=
  restore_cli "append" (Some "SELECT * FROM parquet_view").

Definition archive_cli : Restore.Args := restore_cli "fail" None.

(** Two rows of the relational source. *)
Definition source : Extract.DataFrame :=
  {| Extract.columns := ["id"]; Extract.rows := [[VInt 1]; [VInt 2]] |}.

Definition reachable : Extract.World :=
  {| Extract.session_error := None;
     Extract.jdbc := λ _ _ _, inl source;
     Extract.now := "2024-01-01 00:00:00";
     Extract.parquet_error := λ _ _ _ _, None |}.

(** Spark starts; the relational endpoint refuses the connection. *)
Definition source_down : Extract.World :=
  {| Extract.session_error := None;
     Extract.jdbc := λ _ _ _, inr "The TCP/IP connection to the host has failed";
     Extract.now := "2024-01-01 00:00:00";
     Extract.parquet_error := λ _ _ _ _, None |}.

(** An engine without the LZO codec: Spark ships none, and a write with
    [lzo] fails for want of the codec class. Every other write goes
    through. *)
Definition refuses_lzo : Extract.World :=
  {| Extract.session_error := None;
     Extract.jdbc := λ _ _ _, inl source;
     Extract.now := "2024-01-01 00:00:00";
     Extract.parquet_error := λ _ codec _ _,
       if String.eqb (Py.lower codec) "lzo"
       then Some "Class com.hadoop.compression.lzo.LzoCodec not found"
       else None |}.

(** A source table that has a column [Extraction_Timestamp] of its own. *)
Definition stamped_source : Extract.DataFrame :=
  {| Extract.columns := ["id"; "Extraction_Timestamp"];
     Extract.rows := [[VInt 1; VText "2023-12-31 23:59:59"];
                      [VInt 2; VText "2023-12-31 23:59:59"]] |}.

Definition fresh : Extract.State :=
  {| Extract.session_active := false; Extract.spark := false;
     Extract.trace := []; Extract.log := [] |}.

(** [extract_data.py --table ... --query ... --output-path /out], the
    connection parameters given. *)
Definition extract_cli (table query : option string) : Extract.Args :=
  {| Extract.server := Some "db1"; Extract.database := Some "sales";
     Extract.username := Some "etl"; Extract.password := Some "secret";
     Extract.table := table; Extract.query := query;
     Extract.output_path := "/out"; Extract.compression := "snappy";
     Extract.partition_by := None; Extract.app_name := "SQL-to-Parquet" |}.

(** [extract_data.py --table orders --output-path /out] with no [--server],
    in an environment that sets [SQL_DATABASE], [SQL_USERNAME] and
    [SQL_PASSWORD]. *)
Definition flags_without_server : ExtractCli.Flags :=
  {| ExtractCli.flag_server := None; ExtractCli.flag_database := None;
     ExtractCli.flag_username := None; ExtractCli.flag_password := None;
     ExtractCli.flag_table := Some "orders"; ExtractCli.flag_query := None;
     ExtractCli.flag_output_path := "/out"; ExtractCli.flag_compression := None;
     ExtractCli.flag_partition_by := None; ExtractCli.flag_app_name := None |}.

Definition environ : gmap string string :=
  {[ "SQL_DATABASE" := "sales"; "SQL_USERNAME" := "etl"; "SQL_PASSWORD" := "secret" ]}.

End Demo.

(** ** The monad *)

Section Within.

Context {St : Type} (R : relation St) `{!PreOrder R} (E : exn → Prop).

Lemma within_ret {A} (a : A) : within R E (mret a).
Proof. intros st. split; [reflexivity|]. intros e He. discriminate He. Qed.

Lemma within_raise {A} (e : exn) : E e → within R E (raise e : M St A).
Proof. intros He st. split; [reflexivity|]. intros e' [= <-]. exact He. Qed.

Lemma within_modify (f : St → St) : (∀ st, R st (f st)) → within R E (modify f).
Proof. intros Hf st. split; [apply Hf|]. intros e He. discriminate He. Qed.

Lemma within_gets {A} (f : St → A) : within R E (gets f).
Proof. intros st. split; [reflexivity|]. intros e He. discriminate He. Qed.

Lemma within_bind {A B} (m : M St A) (k : A → M St B) :
  within R E m → (∀ a, within R E (k a)) → within R E (m ≫= k).
Proof.
  intros Hm Hk st. unfold mbind, M_bind.
  destruct (Hm st) as [HR HE]. destruct (m st) as [[a|e] st1]; simpl in *.
  - destruct (Hk a st1) as [HR1 HE1]. split; [by etrans|done].
  - split; [done|]. intros e' [= <-]. by apply HE.
Qed.

Lemma within_for_each {A} (l : list A) (body : A → M St unit) :
  (∀ x, within R E (body x)) → within R E (for_each l body).
Proof.
  intros Hb. induction l as [|x l IH]; simpl; [apply within_ret|].
  apply within_bind; [apply Hb|]. intros _. exact IH.
Qed.

Lemma within_try_except {A} (body : M St A) (handler : exn → M St A) :
  within R E body → (∀ e, E e → within R E (handler e)) →
  within R E (try_except body handler).
Proof.
  intros Hb Hh st. unfold try_except.
  destruct (Hb st) as [HR HE]. destruct (body st) as [[a|e] st1]; simpl in *; [done|].
  destruct (is_exception e).
  - destruct (Hh e (HE e eq_refl) st1) as [HR1 HE1]. split; [by etrans|done].
  - split; [done|]. intros e' [= <-]. by apply HE.
Qed.

Lemma within_try_finally {A} (body : M St A) (fin : M St unit) :
  within R E body → within R E fin → within R E (try_finally body fin).
Proof.
  intros Hb Hf st. unfold try_finally.
  destruct (Hb st) as [HR HE]. destruct (body st) as [r st1]; simpl in *.
  destruct (Hf st1) as [HR1 HE1]. destruct (fin st1) as [[[]|e] st2]; simpl in *.
  - split; [by etrans|done].
  - split; [by etrans|]. intros e' [= <-]. by apply HE1.
Qed.

End Within.

Create HintDb within_db discriminated.

(** One step through a computation for a goal [within R E m]; [side]
    closes the goals on [R] and [E]. *)
Ltac within_step side :=
  lazymatch goal with
  | |- PreOrder _ => apply _
  | |- ∀ _, _ => intros ?
  | |- within _ _ (_ ≫= _) => apply within_bind
  | |- within _ _ (mret _) => apply within_ret
  | |- within _ _ (gets _) => apply within_gets
  | |- within _ _ (raise _) => apply within_raise
  | |- within _ _ (modify _) => apply within_modify
  | |- within _ _ (for_each _ _) => apply within_for_each
  | |- within _ _ (try_except _ _) => apply within_try_except
  | |- within _ _ (try_finally _ _) => apply within_try_finally
  | |- within _ _ (if ?b then _ else _) => destruct b
  | |- within _ _ (match ?x with _ => _ end) => destruct x
  | |- within _ _ _ => solve [auto 1 with within_db nocore]
  | |- _ => side
  end.

Ltac within_with side := repeat (within_step side).

Lemma bind_ret_l {St A B} (a : A) (k : A → M St B) (st : St) : (mret a ≫= k) st = k a st.
Proof. reflexivity. Qed.

Lemma bind_raise_l {St A B} (e : exn) (k : A → M St B) (st : St) :
  (raise e ≫= k) st = (Raise e, st).
Proof. reflexivity. Qed.

Lemma for_each_app {St A} (l1 l2 : list A) (f : A → M St unit) (st : St) :
  for_each (l1 ++ l2) f st
  = match for_each l1 f st with
    | (Ok _, st1) => for_each l2 f st1
    | (Raise e, st1) => (Raise e, st1)
    end.
Proof.
  revert st. induction l1 as [|x l1 IH]; intros st; [done|].
  simpl. unfold mbind, M_bind. destruct (f x st) as [[[]|e] st0]; [apply IH|done].
Qed.

Lemma string_length_append (s1 s2 : string) :
  String.length (s1 +:+ s2) = String.length s1 + String.length s2.
Proof.
  induction s1 as [|a s1 IH]; [reflexivity|].
  change (String a s1 +:+ s2) with (String a (s1 +:+ s2)). simpl. by rewrite IH.
Qed.

(** ** restore_data.py: the schema mapper and the reconciliation *)

Module RestoreFacts.
Import Restore RestoreSpec.

Ltac run :=
  unfold logger_info, logger_error, mbind, M_bind, mret, M_ret, modify, gets, raise, lift;
  cbn beta iota zeta.

(** C4. [get_sql_data_type] is a total function of the dtype alone: every
    dtype gets one of the four relational types, by the precedence integer,
    floating point, naive datetime64, and otherwise VARCHAR(255); the
    column name plays no part. The last conjunct lists the dtypes by
    class (a timezone-aware timestamp, a boolean and a timedelta fall in
    the text class). *)
Theorem get_sql_data_type_total (d : dtype) (c : string) :
  get_sql_data_type d c ∈ [Sql.Integer; Sql.Float; Sql.DATETIME2; Sql.String 255]
  ∧ (is_integer_dtype d = true → get_sql_data_type d c = Sql.Integer)
  ∧ (is_integer_dtype d = false → is_float_dtype d = true →
     get_sql_data_type d c = Sql.Float)
  ∧ (is_integer_dtype d = false → is_float_dtype d = false →
     is_datetime64_dtype d = true → get_sql_data_type d c = Sql.DATETIME2)
  ∧ (is_integer_dtype d = false → is_float_dtype d = false →
     is_datetime64_dtype d = false → get_sql_data_type d c = Sql.String 255)
  ∧ (∀ c', get_sql_data_type d c' = get_sql_data_type d c)
  ∧ get_sql_data_type d c
    = match d with
      | np_int _ | np_uint _ | pd_Int _ | pd_UInt _ => Sql.Integer
      | np_float _ | pd_Float _ => Sql.Float
      | np_datetime64 _ => Sql.DATETIME2
      | _ => Sql.String 255
      end.
Proof.
  repeat split.
  - destruct d; vm_compute; set_solver.
  - unfold get_sql_data_type. by intros ->.
  - unfold get_sql_data_type. by intros -> ->.
  - unfold get_sql_data_type. by intros -> -> ->.
  - unfold get_sql_data_type. by intros -> -> ->.
  - by destruct d.
Qed.

Section Reconcile.

Context (w : World).

Lemma elem_of_get_table_names (schema : option string)
    (tables : gmap (string * string) DbTable) (name : string) :
  name ∈ get_table_names w schema tables ↔ is_Some (tables !! (resolve w schema, name)).
Proof.
  unfold get_table_names. rewrite list_elem_of_fmap. split.
  - intros ([[s n] t] & -> & Hin). apply list_elem_of_filter in Hin as [Hs Hin].
    simpl in *. subst s. apply elem_of_map_to_list in Hin. eauto.
  - intros [t Ht]. exists ((resolve w schema, name), t). split; [done|].
    apply list_elem_of_filter. split; [done|]. by apply elem_of_map_to_list.
Qed.

Lemma create_table_fail (engine : string) (df : DataFrame) (name : string)
    (schema : option string) (st : State) :
  name ∈ get_table_names w schema (db st) →
  create_table_if_not_exists w engine df name schema "fail" st
  = (Raise (ValueError ("Table " +:+ name +:+ " already exists")),
     add_log INFO ("Checking if table " +:+ name +:+ " exists") st).
Proof.
  intros Hin. unfold create_table_if_not_exists. run.
  rewrite bool_decide_eq_true_2; [|exact Hin]. reflexivity.
Qed.

Lemma insert_fail (engine : string) (df : DataFrame) (name : string)
    (schema : option string) (B : Z) (st : State) :
  name ∈ get_table_names w schema (db st) →
  ∃ st', insert_data_to_sql w engine df name schema B "fail" st
         = (Raise (ValueError ("Table " +:+ name +:+ " already exists")), st')
         ∧ db st' = db st ∧ trace st' = trace st ∧ sql_calls st' = sql_calls st
         ∧ duck_open st' = duck_open st.
Proof.
  intros Hin. unfold insert_data_to_sql. run.
  rewrite create_table_fail by exact Hin. eexists. split; [reflexivity|done].
Qed.

Lemma table_key_schema_ne (s name : string) : s +:+ "." +:+ name ≠ name.
Proof.
  intros H. apply (f_equal String.length) in H.
  rewrite !string_length_append in H. simpl in H. lia.
Qed.

Lemma resolve_truthy (schema : option string) :
  resolve w (if truthy schema then schema else None) = resolve w schema.
Proof. unfold resolve. destruct (truthy schema) eqn:E; [by rewrite E|done]. Qed.

Lemma create_all_singleton_exists (k : string) (t : Table) (st : State) :
  is_Some (db st !! (resolve w (tbl_schema t), tbl_name t)) →
  create_all w {[ k := t ]} st = (Ok tt, st).
Proof.
  intros [x Hx]. unfold create_all. rewrite map_to_list_singleton. simpl.
  unfold create_checkfirst. run. simpl. by rewrite Hx.
Qed.

(** With a schema given, [table_name in metadata.tables] is false (the key
    is [schema.table_name]): nothing is dropped, and [create_all] finds the
    table in place. *)
Lemma replace_with_schema (engine : string) (df : DataFrame) (name s : string) (st : State) :
  name ∈ get_table_names w (Some s) (db st) →
  ∃ st', create_table_if_not_exists w engine df name (Some s) "replace" st = (Ok tt, st')
         ∧ db st' = db st ∧ trace st' = trace st ∧ sql_calls st' = sql_calls st.
Proof.
  intros Hin. pose proof Hin as Hex. apply elem_of_get_table_names in Hex.
  destruct Hex as [t Ht].
  unfold create_table_if_not_exists. run.
  rewrite bool_decide_eq_true_2; [|exact Hin]. simpl. run. simpl.
  rewrite Ht. run.
  rewrite insert_empty.
  rewrite bool_decide_eq_false_2.
  2:{ intros [x Hx]. apply lookup_singleton_Some in Hx as [Hx _].
      by apply table_key_schema_ne in Hx. }
  simpl. rewrite create_all_singleton_exists; [|simpl; eauto].
  eexists; split; [reflexivity|]. done.
Qed.

(** X2. Under the policy [replace], without a schema, a table that exists
    is dropped and created anew, empty, with the mapped columns in the
    order of the frame. *)
Lemma replace_without_schema (engine : string) (df : DataFrame) (name : string) (st : State) :
  name ∈ get_table_names w None (db st) →
  let key := (default_schema w, name) in
  let columns := (λ cd : string * dtype, (cd.1, get_sql_data_type cd.2 cd.1)) <$> dtypes df in
  ∃ st', create_table_if_not_exists w engine df name None "replace" st = (Ok tt, st')
         ∧ db st' = <[key := {| t_columns := columns; t_rows := [] |}]> (db st)
         ∧ trace st' = trace st ++ [DropTable key; CreateTable key columns]
         ∧ sql_calls st' = sql_calls st.
Proof.
  intros Hin key columns. pose proof Hin as Hex. apply elem_of_get_table_names in Hex.
  destruct Hex as [t Ht]. change (resolve w None) with (default_schema w) in Ht.
  unfold create_table_if_not_exists. run.
  rewrite bool_decide_eq_true_2; [|exact Hin]. simpl. run. simpl.
  change (resolve w None) with (default_schema w). rewrite Ht. run.
  rewrite insert_empty. simpl.
  rewrite bool_decide_eq_true_2 by (rewrite lookup_singleton_eq; eauto).
  rewrite lookup_singleton_eq. unfold table_drop. run. simpl.
  change (resolve w None) with (default_schema w). rewrite Ht. simpl.
  unfold create_all. rewrite map_to_list_singleton. simpl.
  unfold create_checkfirst. run. simpl.
  change (resolve w None) with (default_schema w). rewrite lookup_delete_eq. simpl.
  eexists. split; [reflexivity|]. simpl. rewrite insert_delete_eq, <- app_assoc. done.
Qed.

End Reconcile.

(** *** The batches of the insertion loop *)

Lemma range_len_positive (n b : Z) :
  (0 ≤ n)%Z → (0 < b)%Z → range_len 0 n b = ((n + b - 1) `div` b)%Z.
Proof.
  intros Hn Hb. unfold range_len.
  destruct (Z.ltb_spec 0 b) as [_|]; [|lia].
  destruct (Z.ltb_spec 0 n) as [Hpos|Hz].
  - replace (n + b - 1)%Z with (n - 0 - 1 + 1 * b)%Z by lia.
    rewrite Z.div_add by lia. reflexivity.
  - assert (n = 0)%Z as -> by lia. rewrite Z.div_small; lia.
Qed.

Lemma slice_chunk {A} (l : list A) (b k : nat) :
  Py.slice l (Z.of_nat k * Z.of_nat b)
    (Z.min (Z.of_nat k * Z.of_nat b + Z.of_nat b) (Z.of_nat (length l)))
  = chunk_at b l k.
Proof.
  unfold Py.slice, slice_bound, chunk_at.
  destruct (Z.ltb_spec (Z.of_nat k * Z.of_nat b) 0) as [|_]; [lia|].
  destruct (Z.ltb_spec (Z.min (Z.of_nat k * Z.of_nat b + Z.of_nat b) (Z.of_nat (length l))) 0)
    as [|_]; [lia|].
  destruct (decide (length l ≤ k * b)) as [Hge|Hlt].
  - rewrite (drop_ge l (k * b)) by lia.
    rewrite drop_ge by lia. by rewrite !take_nil.
  - replace (Z.to_nat (Z.min (Z.of_nat k * Z.of_nat b) (Z.of_nat (length l)))) with (k * b) by lia.
    set (m := Z.to_nat _ - _).
    destruct (decide (b ≤ length l - k * b)) as [Hb|Hb].
    + replace m with b by lia. done.
    + replace m with (length l - k * b) by lia.
      rewrite !take_ge; [done| |]; rewrite length_drop; lia.
Qed.

Lemma batches_of_chunks (df : DataFrame) (b : nat) :
  0 < b →
  batches_of df (Z.of_nat b)
  = chunk_at b (rows df)
    <$> seq 0 (Z.to_nat ((Z.of_nat (length (rows df)) + Z.of_nat b - 1) `div` Z.of_nat b)).
Proof.
  intros Hb. unfold batches_of, Py.range.
  destruct (Z.eqb_spec (Z.of_nat b) 0) as [|_]; [lia|].
  rewrite range_len_positive by lia.
  rewrite <- list_fmap_compose. apply list_fmap_ext. intros _ k _. simpl.
  rewrite Z.add_0_l. apply slice_chunk.
Qed.

Lemma chunk_at_succ {A} (b : nat) (l : list A) (k : nat) :
  chunk_at b l (S k) = chunk_at b (drop b l) k.
Proof. unfold chunk_at. by rewrite drop_drop. Qed.

Lemma chunks_succ {A} (b c : nat) (l : list A) :
  chunk_at b l <$> seq 0 (S c) = chunk_at b l 0 :: (chunk_at b (drop b l) <$> seq 0 c).
Proof.
  rewrite <- cons_seq, <- fmap_S_seq, fmap_cons, <- list_fmap_compose. f_equal.
  apply list_fmap_ext. intros i k _. apply chunk_at_succ.
Qed.

Lemma concat_chunks {A} (b c : nat) (l : list A) :
  length l ≤ c * b → concat (chunk_at b l <$> seq 0 c) = l.
Proof.
  revert l. induction c as [|c IH]; intros l Hl.
  - destruct l; simpl in *; [done|lia].
  - rewrite chunks_succ. simpl.
    rewrite IH; [|rewrite length_drop; lia].
    unfold chunk_at. simpl. apply take_drop.
Qed.

Lemma length_chunk_at {A} (b : nat) (l : list A) (k : nat) :
  length (chunk_at b l k) = b `min` (length l - k * b).
Proof. unfold chunk_at. by rewrite length_take, length_drop. Qed.

Lemma concat_take_chunks {A} (b c k : nat) (l : list A) :
  k ≤ c → concat (take k (chunk_at b l <$> seq 0 c)) = take (k * b) l.
Proof.
  intros Hk. rewrite <- fmap_take, take_seq. replace (k `min` c) with k by lia.
  clear c Hk. revert l. induction k as [|k IH]; intros l; [done|].
  rewrite chunks_succ. simpl.
  rewrite IH. unfold chunk_at. simpl. rewrite take_take_drop. done.
Qed.

Lemma batch_sizes (df : DataFrame) (b : nat) :
  0 < b →
  length <$> batches_of df (Z.of_nat b)
  = (λ k, b `min` (length (rows df) - k * b))
    <$> seq 0 (Z.to_nat ((Z.of_nat (length (rows df)) + Z.of_nat b - 1) `div` Z.of_nat b)).
Proof.
  intros Hb. rewrite batches_of_chunks by done. rewrite <- list_fmap_compose.
  apply list_fmap_ext. intros _ k _. apply length_chunk_at.
Qed.

Lemma ceil_div_bounds (n b : nat) :
  0 < b →
  let c := Z.to_nat ((Z.of_nat n + Z.of_nat b - 1) `div` Z.of_nat b) in
  n ≤ c * b ∧ (0 < n → (c - 1) * b < n ∧ 0 < c) ∧ (n = 0 → c = 0).
Proof.
  intros Hb c. subst c.
  pose proof (Z.div_mod (Z.of_nat n + Z.of_nat b - 1) (Z.of_nat b)) as Hdm.
  pose proof (Z.mod_pos_bound (Z.of_nat n + Z.of_nat b - 1) (Z.of_nat b)) as Hm.
  pose proof (Z.div_pos (Z.of_nat n + Z.of_nat b - 1) (Z.of_nat b)) as Hq.
  set (q := ((Z.of_nat n + Z.of_nat b - 1) `div` Z.of_nat b)%Z) in *.
  set (r := ((Z.of_nat n + Z.of_nat b - 1) `mod` Z.of_nat b)%Z) in *.
  assert (0 ≤ q)%Z by (apply Hq; lia).
  split; [nia|]. split; [intros Hn; split; nia|]. intros Hn. nia.
Qed.

Lemma last_batch_size (n b : nat) :
  0 < b → 0 < n →
  let c := Z.to_nat ((Z.of_nat n + Z.of_nat b - 1) `div` Z.of_nat b) in
  Z.of_nat (b `min` (n - (c - 1) * b))
  = if (Z.of_nat n `mod` Z.of_nat b =? 0)%Z then Z.of_nat b
    else (Z.of_nat n `mod` Z.of_nat b)%Z.
Proof.
  intros Hb Hn c.
  destruct (ceil_div_bounds n b Hb) as (H1 & H2 & _). fold c in H1, H2.
  destruct (H2 Hn) as [H3 H4].
  pose proof (Z.div_mod (Z.of_nat n) (Z.of_nat b)) as Hdm.
  pose proof (Z.mod_pos_bound (Z.of_nat n) (Z.of_nat b)) as Hm.
  pose proof (Z.div_pos (Z.of_nat n) (Z.of_nat b)) as Hq.
  set (q := (Z.of_nat n `div` Z.of_nat b)%Z) in *.
  set (r := (Z.of_nat n `mod` Z.of_nat b)%Z) in *.
  assert (0 ≤ q)%Z by (apply Hq; lia).
  destruct (Z.eqb_spec r 0) as [Hr|Hr].
  - assert (Z.of_nat c = q) by nia. nia.
  - assert (Z.of_nat c = q + 1)%Z by nia. nia.
Qed.

(** The batches of a frame of [N] rows for a positive [batch_size] [B]:
    [ceil(N/B)] of them, all of [B] rows but possibly the last, which has
    [N mod B] rows when that is not zero; together they are the frame. *)
Lemma batches_shape (df : DataFrame) (B : Z) :
  (0 < B)%Z →
  let N := Z.of_nat (length (rows df)) in
  let bs := batches_of df B in
  Z.of_nat (length bs) = ((N + B - 1) `div` B)%Z
  ∧ (∀ j b, bs !! j = Some b → S j < length bs → Z.of_nat (length b) = B)
  ∧ (∀ b, last bs = Some b →
       Z.of_nat (length b) = if (N `mod` B =? 0)%Z then B else (N `mod` B)%Z)
  ∧ concat bs = rows df
  ∧ (∀ k, k ≤ length bs → concat (take k bs) = take (k * Z.to_nat B) (rows df)).
Proof.
  intros HB N bs.
  set (b := Z.to_nat B). assert (Hb : 0 < b) by lia.
  assert (HBb : B = Z.of_nat b) by lia.
  set (c := Z.to_nat ((N + B - 1) `div` B)).
  assert (Hbs : bs = chunk_at b (rows df) <$> seq 0 c).
  { unfold bs, c, N. rewrite HBb. by apply batches_of_chunks. }
  assert (Hlen : length bs = c) by (by rewrite Hbs, length_fmap, length_seq).
  destruct (ceil_div_bounds (length (rows df)) b Hb) as (Hc1 & Hc2 & Hc3).
  rewrite <- HBb in Hc1, Hc2, Hc3. fold N c in Hc1, Hc2, Hc3.
  split; [|split; [|split; [|split]]].
  - rewrite Hlen. unfold c. rewrite Z2Nat.id; [done|]. apply Z.div_pos; lia.
  - intros j x Hj Hlt. rewrite Hbs in Hj. rewrite list_lookup_fmap in Hj.
    destruct (seq 0 c !! j) as [k|] eqn:Hk; [|done]. simpl in Hj.
    apply lookup_seq in Hk as [-> Hk]. injection Hj as <-. rewrite length_chunk_at.
    rewrite Hlen in Hlt. simpl.
    assert (0 < length (rows df)) as Hpos by lia.
    destruct (Hc2 Hpos) as [Hlast _]. nia.
  - intros x Hx. rewrite last_lookup, Hlen in Hx. rewrite Hbs in Hx.
    rewrite list_lookup_fmap in Hx.
    destruct (seq 0 c !! pred c) as [k|] eqn:Hk; [|done]. simpl in Hx.
    apply lookup_seq in Hk as [-> Hk]. injection Hx as <-. rewrite length_chunk_at. simpl.
    assert (0 < length (rows df)) as Hpos by lia.
    pose proof (last_batch_size (length (rows df)) b Hb Hpos) as Hl. simpl in Hl.
    rewrite <- HBb in Hl. fold N c in Hl. replace (pred c) with (c - 1) by lia. exact Hl.
  - rewrite Hbs. by apply concat_chunks.
  - intros k Hk. rewrite Hbs. apply concat_take_chunks. lia.
Qed.

(** *** The insertion loop *)

Section Loop.

Context (w : World) (df : DataFrame) (name : string) (schema : option string)
        (batch_size total_rows : Z).

Let key : string * string := (resolve w schema, name).
Let batch (i : Z) : list row := rows (iloc df i (Z.min (i + batch_size) total_rows)).
Let body := insert_batch w df name schema batch_size total_rows.

Lemma insert_batch_fails (i : Z) (st : State) (msg : string) :
  to_sql_error w (sql_calls st) = Some msg →
  ∃ st', body i st = (Raise (DriverError msg), st')
         ∧ db st' = db st ∧ trace st' = trace st ∧ sql_calls st' = S (sql_calls st).
Proof.
  intros He. unfold body, insert_batch. run.
  destruct (truthy schema); unfold to_sql; run; simpl; rewrite He;
    (eexists; split; [reflexivity|done]).
Qed.

Lemma insert_batch_appends (i : Z) (st : State) :
  to_sql_error w (sql_calls st) = None →
  ∃ st', body i st = (Ok tt, st')
         ∧ rows_of st' key = rows_of st key ++ batch i
         ∧ (∀ t, db st !! key = Some t →
              db st' !! key = Some {| t_columns := t_columns t;
                                      t_rows := t_rows t ++ batch i |})
         ∧ trace st' = trace st ++ [Insert key (batch i)]
         ∧ sql_calls st' = S (sql_calls st).
Proof.
  intros He. unfold body, insert_batch. run.
  pose proof (resolve_truthy w schema) as Hres.
  destruct (truthy schema); unfold to_sql; run; simpl; rewrite He; try rewrite Hres;
    (eexists; split; [reflexivity|]); unfold rows_of; simpl;
    (split; [rewrite lookup_insert_eq; fold key; by destruct (db st !! key)|]);
    (split; [|done]); intros t Ht; fold key; rewrite lookup_insert_eq, Ht; done.
Qed.

(** The first [k] turns of the loop, when their [to_sql] calls succeed:
    each appended its batch, in order. *)
Lemma for_each_batches (offsets : list Z) (k : nat) (st : State) :
  k ≤ length offsets →
  (∀ j, j < k → to_sql_error w (sql_calls st + j) = None) →
  ∃ st1, for_each (take k offsets) body st = (Ok tt, st1)
         ∧ rows_of st1 key = rows_of st key ++ concat (batch <$> take k offsets)
         ∧ (∀ t, db st !! key = Some t →
              db st1 !! key
              = Some {| t_columns := t_columns t;
                        t_rows := t_rows t ++ concat (batch <$> take k offsets) |})
         ∧ trace st1 = trace st ++ (Insert key <$> (batch <$> take k offsets))
         ∧ sql_calls st1 = sql_calls st + k.
Proof.
  revert k st. induction offsets as [|i offsets IH]; intros k st Hk Hok.
  - rewrite take_nil. simpl. exists st. rewrite !app_nil_r.
    assert (k = 0) as -> by (simpl in Hk; lia). rewrite Nat.add_0_r.
    repeat split; try done. intros [c r] Ht. by rewrite app_nil_r.
  - destruct k as [|k].
    + simpl. exists st. rewrite !app_nil_r, Nat.add_0_r.
      repeat split; try done. intros [c r] Ht. by rewrite app_nil_r.
    + rewrite firstn_cons. cbn [for_each]. unfold mbind, M_bind.
      destruct (insert_batch_appends i st) as (st0 & -> & Hr & Hf & Ht & Hc).
      { rewrite <- (Nat.add_0_r (sql_calls st)). apply Hok. lia. }
      destruct (IH k st0) as (st1 & -> & Hr1 & Hf1 & Ht1 & Hc1).
      { simpl in Hk. lia. }
      { intros j Hj. rewrite Hc. replace (S (sql_calls st) + j) with (sql_calls st + S j) by lia.
        apply Hok. lia. }
      exists st1. split; [done|]. rewrite Hr1, Hr, Ht1, Ht, Hc1, Hc.
      rewrite !fmap_cons. simpl. rewrite <- !app_assoc. simpl.
      repeat split; try done; try lia.
      intros t Hdb. rewrite (Hf1 _ (Hf _ Hdb)). simpl. by rewrite <- app_assoc.
Qed.

End Loop.

Section Insert.

Context (w : World).

Lemma rows_of_add_log (lvl : Level) (msg : string) (st : State) (key : string * string) :
  rows_of (add_log lvl msg st) key = rows_of st key.
Proof. reflexivity. Qed.

(** [insert_data_to_sql] from the state the reconciliation left. *)
Lemma insert_after_reconcile (engine : string) (df : DataFrame) (name : string)
    (schema : option string) (B : Z) (if_exists : string) (st st1 : State) :
  create_table_if_not_exists w engine df name schema if_exists
    (add_log INFO ("Beginning data insertion to " +:+ name) st) = (Ok tt, st1) →
  insert_data_to_sql w engine df name schema B if_exists st
  = let total_rows := Z.of_nat (length (rows df)) in
    let st2 := add_log INFO ("Preparing to insert " +:+ pretty total_rows +:+ " rows") st1 in
    match Py.range 0 total_rows B with
    | Raise e => (Raise e, st2)
    | Ok offsets =>
        match for_each offsets (insert_batch w df name schema B total_rows) st2 with
        | (Ok _, st3) =>
            (Ok tt, add_log INFO ("Successfully inserted " +:+ pretty total_rows
                                  +:+ " rows into " +:+ name) st3)
        | (Raise e, st3) => (Raise e, st3)
        end
    end.
Proof.
  intros Hc. unfold insert_data_to_sql. run. rewrite Hc. cbn zeta.
  destruct (Py.range _ _ _) as [offsets|e]; [|done].
  destruct (for_each _ _ _) as [[[]|e] st3]; done.
Qed.

Lemma batches_of_offsets (df : DataFrame) (B : Z) :
  (B ≠ 0)%Z →
  ∃ offsets, Py.range 0 (Z.of_nat (length (rows df))) B = Ok offsets
             ∧ batches_of df B
               = (λ i, rows (iloc df i (Z.min (i + B) (Z.of_nat (length (rows df))))))
                 <$> offsets.
Proof.
  intros HB. unfold batches_of, Py.range.
  destruct (Z.eqb_spec B 0) as [|_]; [lia|]. eauto.
Qed.

(** No [to_sql] call fails: every batch is inserted, in order. *)
Lemma insert_runs_all_batches (engine : string) (df : DataFrame) (name : string)
    (schema : option string) (B : Z) (if_exists : string) (st st1 : State) :
  (B ≠ 0)%Z →
  create_table_if_not_exists w engine df name schema if_exists
    (add_log INFO ("Beginning data insertion to " +:+ name) st) = (Ok tt, st1) →
  (∀ j, j < length (batches_of df B) → to_sql_error w (sql_calls st1 + j) = None) →
  let key := (resolve w schema, name) in
  ∃ st2, insert_data_to_sql w engine df name schema B if_exists st = (Ok tt, st2)
         ∧ trace st2 = trace st1 ++ (Insert key <$> batches_of df B)
         ∧ rows_of st2 key = rows_of st1 key ++ concat (batches_of df B)
         ∧ (∀ t, db st1 !! key = Some t →
              db st2 !! key = Some {| t_columns := t_columns t;
                                      t_rows := t_rows t ++ concat (batches_of df B) |}).
Proof.
  intros HB Hc Hok key. destruct (batches_of_offsets df B HB) as (offsets & Hrange & Hbo).
  rewrite (insert_after_reconcile _ _ _ _ _ _ _ _ Hc). cbn zeta. rewrite Hrange.
  set (N := Z.of_nat (length (rows df))) in *.
  destruct (for_each_batches w df name schema B N offsets (length offsets)
              (add_log INFO ("Preparing to insert " +:+ pretty N +:+ " rows") st1))
    as (st3 & Hrun & Hr & Hdb & Ht & _); [done| |].
  { intros j Hj. simpl. apply Hok. rewrite Hbo, length_fmap. lia. }
  rewrite firstn_all in Hrun, Hr, Hdb, Ht. rewrite Hrun. eexists. split; [reflexivity|].
  rewrite rows_of_add_log in *. cbn [trace add_log db] in Ht, Hdb |- *. subst key.
  rewrite <- Hbo in Hdb. rewrite Ht, Hr, <- Hbo.
  split; [done|]. split; [done|]. exact Hdb.
Qed.

(** The call for batch [k + 1] fails: the loop stops with the driver's
    error, batches 1 to [k] inserted and no other. *)
Lemma insert_stops_at_failure (engine : string) (df : DataFrame) (name : string)
    (schema : option string) (B : Z) (if_exists : string) (st st1 : State)
    (k : nat) (msg : string) :
  (B ≠ 0)%Z →
  create_table_if_not_exists w engine df name schema if_exists
    (add_log INFO ("Beginning data insertion to " +:+ name) st) = (Ok tt, st1) →
  k < length (batches_of df B) →
  (∀ j, j < k → to_sql_error w (sql_calls st1 + j) = None) →
  to_sql_error w (sql_calls st1 + k) = Some msg →
  let key := (resolve w schema, name) in
  ∃ st2, insert_data_to_sql w engine df name schema B if_exists st
         = (Raise (DriverError msg), st2)
         ∧ trace st2 = trace st1 ++ (Insert key <$> take k (batches_of df B))
         ∧ rows_of st2 key = rows_of st1 key ++ concat (take k (batches_of df B)).
Proof.
  intros HB Hc Hk Hok Hfail key.
  destruct (batches_of_offsets df B HB) as (offsets & Hrange & Hbo).
  rewrite (insert_after_reconcile _ _ _ _ _ _ _ _ Hc). cbn zeta. rewrite Hrange.
  set (N := Z.of_nat (length (rows df))) in *.
  assert (Hlo : k < length offsets) by (by rewrite Hbo, length_fmap in Hk).
  destruct (for_each_batches w df name schema B N offsets k
              (add_log INFO ("Preparing to insert " +:+ pretty N +:+ " rows") st1))
    as (st3 & Hrun & Hr & _ & Ht & Hcalls); [lia| |].
  { intros j Hj. simpl. apply Hok. lia. }
  pose proof (for_each_app (take k offsets) (drop k offsets)
                (insert_batch w df name schema B N)
                (add_log INFO ("Preparing to insert " +:+ pretty N +:+ " rows") st1)) as Happ.
  rewrite take_drop in Happ. rewrite Happ, Hrun. clear Happ.
  destruct (drop k offsets) as [|i rest] eqn:Hdrop.
  { apply (f_equal length) in Hdrop. rewrite length_drop in Hdrop. simpl in Hdrop. lia. }
  cbn [for_each]. unfold mbind, M_bind.
  destruct (insert_batch_fails w df name schema B N i st3 msg) as (st4 & -> & Hd & Ht4 & _).
  { rewrite Hcalls. simpl. exact Hfail. }
  exists st4. split; [done|]. rewrite rows_of_add_log in *. cbn [trace add_log] in Ht.
  assert (rows_of st4 key = rows_of st3 key) as -> by (unfold rows_of; by rewrite Hd).
  subst key. rewrite Ht4, Ht, Hr, Hbo, fmap_take. done.
Qed.

End Insert.

(** *** The destination writer *)

Section Writer.

Context (w : World).

(** C2. Under the policy [fail], when the target table is among the tables
    of the schema, [insert_data_to_sql] raises the [ValueError] that names
    the table, and it does so before the loop: the tables of the
    destination are what they were, nothing was sent to it and no [to_sql]
    call was made. *)
Theorem fail_policy_raises_before_insert (engine : string) (df : DataFrame) (name : string)
    (schema : option string) (B : Z) (st : State) :
  name ∈ get_table_names w schema (db st) →
  ∃ st', insert_data_to_sql w engine df name schema B "fail" st
         = (Raise (ValueError ("Table " +:+ name +:+ " already exists")), st')
         ∧ db st' = db st
         ∧ rows_of st' (resolve w schema, name) = rows_of st (resolve w schema, name)
         ∧ trace st' = trace st
         ∧ sql_calls st' = sql_calls st.
Proof.
  intros Hin. destruct (insert_fail w engine df name schema B st Hin)
    as (st' & Hrun & Hdb & Ht & Hc & _).
  exists st'. unfold rows_of. rewrite Hdb. done.
Qed.

(** C3. For a positive batch size [B] and a frame of [N] rows, once the
    reconciliation has returned: the loop takes [ceil(N/B)] batches, each
    of [B] rows except possibly the last, which has [N mod B] rows when
    that is not zero, and the batches together are the frame; when no
    [to_sql] call fails they are inserted one after the other; when the
    call after batch [k] fails, the run ends with that error, the rows of
    batches 1 to [k] are in the table (the first [k * B] rows of the frame)
    and no later batch was sent. The default batch size is 1000, and 2500
    rows with it give batches of 1000, 1000 and 500 rows. *)
Theorem insert_in_batches (engine : string) (df : DataFrame) (name : string)
    (schema : option string) (B : Z) (if_exists : string) (st st1 : State) :
  (0 < B)%Z →
  create_table_if_not_exists w engine df name schema if_exists
    (add_log INFO ("Beginning data insertion to " +:+ name) st) = (Ok tt, st1) →
  let N := Z.of_nat (length (rows df)) in
  let bs := batches_of df B in
  let key := (resolve w schema, name) in
  Z.of_nat (length bs) = ((N + B - 1) `div` B)%Z
  ∧ (∀ j b, bs !! j = Some b → S j < length bs → Z.of_nat (length b) = B)
  ∧ (∀ b, last bs = Some b →
       Z.of_nat (length b) = if (N `mod` B =? 0)%Z then B else (N `mod` B)%Z)
  ∧ concat bs = rows df
  ∧ ((∀ j, j < length bs → to_sql_error w (sql_calls st1 + j) = None) →
     ∃ st2, insert_data_to_sql w engine df name schema B if_exists st = (Ok tt, st2)
            ∧ trace st2 = trace st1 ++ (Insert key <$> bs)
            ∧ rows_of st2 key = rows_of st1 key ++ rows df)
  ∧ (∀ k msg, k < length bs →
       (∀ j, j < k → to_sql_error w (sql_calls st1 + j) = None) →
       to_sql_error w (sql_calls st1 + k) = Some msg →
     ∃ st2, insert_data_to_sql w engine df name schema B if_exists st
            = (Raise (DriverError msg), st2)
            ∧ trace st2 = trace st1 ++ (Insert key <$> take k bs)
            ∧ rows_of st2 key = rows_of st1 key ++ concat (take k bs)
            ∧ concat (take k bs) = take (k * Z.to_nat B) (rows df))
  ∧ default_batch_size = 1000%Z
  ∧ (length (rows df) = 2500 → B = default_batch_size →
     length <$> bs = [1000; 1000; 500]).
Proof.
  intros HB Hc N bs key.
  destruct (batches_shape df B HB) as (Hlen & Hfull & Hlast & Hcat & Htake).
  fold N bs in Hlen, Hfull, Hlast, Hcat, Htake.
  split; [exact Hlen|]. split; [exact Hfull|]. split; [exact Hlast|]. split; [exact Hcat|].
  split; [|split; [|split]].
  - intros Hok.
    destruct (insert_runs_all_batches w engine df name schema B if_exists st st1)
      as (st2 & Hrun & Ht & Hr & _); [lia|exact Hc|exact Hok|].
    exists st2. fold bs key in Ht, Hr. rewrite Hcat in Hr. done.
  - intros k msg Hk Hok Hfail.
    destruct (insert_stops_at_failure w engine df name schema B if_exists st st1 k msg)
      as (st2 & Hrun & Ht & Hr); [lia|exact Hc|exact Hk|exact Hok|exact Hfail|].
    exists st2. fold bs key in Ht, Hr. split; [done|]. split; [done|]. split; [done|].
    apply Htake. lia.
  - reflexivity.
  - intros Hn HB'. unfold bs. rewrite HB'. unfold default_batch_size.
    change 1000%Z with (Z.of_nat 1000). rewrite batch_sizes by lia. rewrite Hn.
    vm_compute. reflexivity.
Qed.

(** C7, on the code: under the policy [replace], with a schema named, a
    table that exists is neither dropped nor created again. It keeps its
    columns and its rows, and the rows of the frame are appended to them:
    the calls sent to the destination are the inserts alone. *)
Theorem replace_keeps_table_in_named_schema (engine : string) (df : DataFrame)
    (name s : string) (B : Z) (st : State) (t : DbTable) :
  db st !! (resolve w (Some s), name) = Some t →
  (0 < B)%Z →
  (∀ k, to_sql_error w k = None) →
  let key := (resolve w (Some s), name) in
  ∃ st', insert_data_to_sql w engine df name (Some s) B "replace" st = (Ok tt, st')
         ∧ db st' !! key = Some {| t_columns := t_columns t;
                                   t_rows := t_rows t ++ rows df |}
         ∧ trace st' = trace st ++ (Insert key <$> batches_of df B).
Proof.
  intros Ht HB Hok key.
  assert (Hin : name ∈ get_table_names w (Some s)
                  (db (add_log INFO ("Beginning data insertion to " +:+ name) st))).
  { apply elem_of_get_table_names. simpl. eauto. }
  destruct (replace_with_schema w engine df name s _ Hin) as (st1 & Hc & Hdb & Htr & _).
  simpl in Hdb, Htr.
  destruct (insert_runs_all_batches w engine df name (Some s) B "replace" st st1)
    as (st2 & Hrun & Ht2 & _ & Hkeep); [lia|exact Hc|intros; apply Hok|].
  exists st2. split; [exact Hrun|]. fold key in Ht2, Hkeep.
  destruct (batches_shape df B HB) as (_ & _ & _ & Hcat & _).
  rewrite Hcat in Hkeep. rewrite Hdb in Hkeep. rewrite (Hkeep t Ht), Ht2, Htr. done.
Qed.

(** C10. Once the reconciliation has returned: a batch size of zero makes
    [insert_data_to_sql] raise the [ValueError] of [range] before any
    insert, and a negative one makes it return with no turn of the loop
    taken. Either way the destination is as the reconciliation left it
    (this does not depend on the frame being non-empty). *)
Theorem nonpositive_batch_size (engine : string) (df : DataFrame) (name : string)
    (schema : option string) (B : Z) (if_exists : string) (st st1 : State) :
  create_table_if_not_exists w engine df name schema if_exists
    (add_log INFO ("Beginning data insertion to " +:+ name) st) = (Ok tt, st1) →
  (B = 0%Z →
   ∃ st2, insert_data_to_sql w engine df name schema B if_exists st
          = (Raise (ValueError "range() arg 3 must not be zero"), st2)
          ∧ db st2 = db st1 ∧ trace st2 = trace st1 ∧ sql_calls st2 = sql_calls st1)
  ∧ ((B < 0)%Z →
     ∃ st2, insert_data_to_sql w engine df name schema B if_exists st = (Ok tt, st2)
            ∧ batches_of df B = []
            ∧ db st2 = db st1 ∧ trace st2 = trace st1 ∧ sql_calls st2 = sql_calls st1).
Proof.
  intros Hc. split.
  - intros ->. rewrite (insert_after_reconcile _ _ _ _ _ _ _ _ _ Hc). cbn zeta.
    unfold Py.range. simpl. eexists. split; [reflexivity|done].
  - intros HB. rewrite (insert_after_reconcile _ _ _ _ _ _ _ _ _ Hc). cbn zeta.
    assert (Hr : Py.range 0 (Z.of_nat (length (rows df))) B = Ok []).
    { unfold Py.range, range_len.
      destruct (Z.eqb_spec B 0) as [|_]; [lia|].
      destruct (Z.ltb_spec 0 B) as [|_]; [lia|].
      destruct (Z.ltb_spec (Z.of_nat (length (rows df))) 0) as [|_]; [lia|]. done. }
    unfold batches_of. rewrite Hr. simpl. eexists. split; [reflexivity|done].
Qed.

End Writer.

(** *** The run *)

#[local] Instance grows_preorder : PreOrder grows.
Proof.
  split.
  - intros st. unfold grows. reflexivity.
  - intros st1 st2 st3. unfold grows. apply transitivity.
Qed.

#[local] Instance untouched_preorder : PreOrder untouched.
Proof.
  split.
  - intros st. by split.
  - intros st1 st2 st3 [H1 H2] [H3 H4]. split; congruence.
Qed.

(** Closes the side goals of [within grows not_path_error]. *)
Ltac tame_side :=
  lazymatch goal with
  | |- not_path_error _ => first [assumption | exact I]
  | |- grows _ _ => unfold grows; simpl; first [reflexivity | apply prefix_app_r; reflexivity]
  end.


Ltac tame := within_with ltac:(idtac; tame_side).


Section Run.

Context (w : World).

Lemma tame_logger_info (msg : string) : within grows not_path_error (logger_info msg).
Proof. unfold logger_info. tame. Qed.

Lemma tame_logger_error (msg : string) : within grows not_path_error (logger_error msg).
Proof. unfold logger_error. tame. Qed.

Lemma tame_connect (p : string) : within grows not_path_error (connect_to_duckdb p).
Proof. unfold connect_to_duckdb, logger_info. tame. Qed.

Lemma tame_conn_execute (sql : string) : within grows not_path_error (conn_execute w sql).
Proof. unfold conn_execute. tame. Qed.

Lemma tame_conn_close : within grows not_path_error conn_close.
Proof. unfold conn_close. tame. Qed.

Lemma tame_reflect (only : list string) (schema : option string) :
  within grows not_path_error (reflect w only schema).
Proof. induction only as [|n only IH]; simpl; tame. Qed.

Lemma tame_lift_range (start stop step : Z) :
  within grows not_path_error (lift (Py.range start stop step)).
Proof.
  unfold lift, Py.range. intros st. split; [reflexivity|]. simpl.
  destruct (step =? 0)%Z; [intros e [= <-]; exact I|discriminate].
Qed.

#[local] Hint Resolve tame_logger_info tame_logger_error tame_connect tame_conn_execute
  tame_conn_close tame_reflect tame_lift_range : within_db.

Lemma tame_create_table (engine : string) (df : DataFrame) (name : string)
    (schema : option string) (if_exists : string) :
  within grows not_path_error (create_table_if_not_exists w engine df name schema if_exists).
Proof.
  unfold create_table_if_not_exists, create_all, create_checkfirst, table_drop.
  tame.
Qed.

#[local] Hint Resolve tame_create_table : within_db.

Lemma tame_insert_data_to_sql (engine : string) (df : DataFrame) (name : string)
    (schema : option string) (B : Z) (if_exists : string) :
  within grows not_path_error (insert_data_to_sql w engine df name schema B if_exists).
Proof. unfold insert_data_to_sql, insert_batch, to_sql. tame. Qed.

#[local] Hint Resolve tame_insert_data_to_sql : within_db.

(** With a transformation query, nothing in the run raises the
    location-not-found error. *)
Lemma main_never_path_error_with_query (cli : Args) :
  truthy (transform_query cli) = true →
  within grows not_path_error (main w cli).
Proof.
  intros Hq st. unfold main, parse_args.
  destruct (bool_decide _).
  - rewrite bind_ret_l, Hq.
    lazymatch goal with
    | |- grows st (?m st).2 ∧ _ => revert st; change (within grows not_path_error m)
    end.
    unfold create_sqlalchemy_engine. tame.
  - rewrite bind_raise_l. simpl. split; [reflexivity|]. by intros e [= <-].
Qed.

(** With a transformation query, the run opens a DuckDB connection and
    issues the statement that reads the archive, first of all. *)
Lemma main_with_query_issues_read (cli : Args) (st : State) :
  truthy (transform_query cli) = true →
  if_exists cli ∈ ["fail"; "replace"; "append"] →
  ∃ rest, trace (main w cli st).2
          = trace st ++ DuckConnect ":memory:"
                     :: DuckExecute (view_statement (parquet_path cli)) :: rest.
Proof.
  intros Hq Hif. unfold main, parse_args. rewrite bool_decide_eq_true_2 by done.
  rewrite bind_ret_l, Hq.
  unfold try_except.
  match goal with |- context [(?load ≫= ?k) st] =>
    set (K := k); set (L := load) end.
  assert (HL : ∃ rest, trace (L st).2
                       = trace st ++ DuckConnect ":memory:"
                           :: DuckExecute (view_statement (parquet_path cli)) :: rest).
  { unfold L, connect_to_duckdb, conn_execute, conn_close. run. simpl.
    destruct (duck_execute w (view_statement (parquet_path cli))); simpl.
    - destruct (duck_execute w _); simpl; rewrite <- !app_assoc; simpl; eauto.
    - rewrite <- !app_assoc; simpl; eauto. }
  destruct HL as [rest HL].
  unfold mbind, M_bind. destruct (L st) as [[df|e] st1]; simpl in HL.
  - assert (HK : within grows not_path_error (K df)).
    { unfold K, create_sqlalchemy_engine. tame. }
    destruct (HK st1) as [Hg _]. unfold grows in Hg. destruct Hg as [more Hg].
    destruct (K df st1) as [[[]|e] st2]; simpl in *.
    + exists (rest ++ more). rewrite Hg, HL, <- app_assoc. done.
    + destruct (is_exception e); simpl;
        exists (rest ++ more); rewrite Hg, HL, <- app_assoc; done.
  - destruct (is_exception e); simpl; exists rest; done.
Qed.

(** C6, on the code: with a transformation query, a run whose archive path
    does not exist connects to DuckDB and issues the statement that reads
    the archive, and whatever error ends the run is not the
    location-not-found one. *)
Theorem transform_query_reads_unchecked_path (cli : Args) (st : State) :
  path_exists w (parquet_path cli) = false →
  truthy (transform_query cli) = true →
  if_exists cli ∈ ["fail"; "replace"; "append"] →
  (∃ rest, trace (main w cli st).2
           = trace st ++ DuckConnect ":memory:"
                      :: DuckExecute (view_statement (parquet_path cli)) :: rest)
  ∧ (∀ msg, (main w cli st).1 ≠ Raise (FileNotFoundError msg)).
Proof.
  intros _ Hq Hif. split; [by apply main_with_query_issues_read|].
  intros msg He. destruct (main_never_path_error_with_query cli Hq st) as [_ HE].
  exact (HE _ He).
Qed.

(** X4. Without a transformation query, a run whose archive path does not
    exist fails in [load_parquet_to_pandas] with the location-not-found
    error, before DuckDB is touched. *)
Lemma missing_path_without_query (cli : Args) (st : State) :
  path_exists w (parquet_path cli) = false →
  truthy (transform_query cli) = false →
  if_exists cli ∈ ["fail"; "replace"; "append"] →
  (main w cli st).1
  = Raise (FileNotFoundError ("Parquet path not found: " +:+ parquet_path cli))
  ∧ trace (main w cli st).2 = trace st
  ∧ duck_open (main w cli st).2 = duck_open st.
Proof.
  intros Hp Hq Hif. unfold main, parse_args. rewrite bool_decide_eq_true_2 by done.
  rewrite bind_ret_l, Hq. unfold try_except, load_parquet_to_pandas. run.
  rewrite Hp. simpl. done.
Qed.

(** C8, on the code: when the transformation query fails (the view having
    been created), the run ends with the engine's error and the DuckDB
    connection it opened is still open: [conn.close()] was not reached. *)
Theorem failed_transform_query_leaves_connection_open (cli : Args) (st : State)
    (df0 : DataFrame) (msg : string) :
  truthy (transform_query cli) = true →
  if_exists cli ∈ ["fail"; "replace"; "append"] →
  duck_execute w (view_statement (parquet_path cli)) = inl df0 →
  duck_execute w (default "" (transform_query cli)) = inr msg →
  ∃ st', main w cli st = (Raise (DriverError msg), st')
         ∧ duck_open st' = S (duck_open st)
         ∧ trace st' = trace st ++ [DuckConnect ":memory:";
                                    DuckExecute (view_statement (parquet_path cli));
                                    DuckExecute (default "" (transform_query cli))].
Proof.
  intros Hq Hif Hview Hquery. unfold main, parse_args.
  rewrite bool_decide_eq_true_2 by done. rewrite bind_ret_l, Hq.
  unfold try_except, connect_to_duckdb, conn_execute, conn_close. run.
  simpl. rewrite Hview. simpl.
  rewrite Hquery. simpl. eexists. split; [reflexivity|]. simpl.
  rewrite <- !app_assoc. done.
Qed.

(** X5. The sibling path: [load_parquet_to_pandas] closes the connection
    it opened on every exit. *)
Lemma load_parquet_closes_connection (p : string) (st : State) :
  duck_open (load_parquet_to_pandas w p st).2 = duck_open st.
Proof.
  unfold load_parquet_to_pandas, try_finally, connect_to_duckdb, conn_execute, conn_close. run.
  destruct (path_exists w p); simpl; [|done].
  destruct (duck_execute w _); simpl; done.
Qed.


End Run.

End RestoreFacts.

(** ** extract_data.py *)

Module ExtractFacts.
Import Extract ExtractSpec.

Ltac run :=
  unfold logger_info, logger_warning, logger_error, parser_error,
    mbind, M_bind, mret, M_ret, modify, gets, raise;
  cbn beta iota zeta.

Ltac unfold_main :=
  unfold main, parse_args, get_spark_session, extract_from_sql_server, spark_read_jdbc,
    save_as_parquet, write_parquet, spark_stop, try_finally, try_except.

Lemma truthy_Some (q : string) : q ≠ "" → truthy (Some q) = true.
Proof.
  intros Hq. unfold truthy. destruct (String.eqb_spec q ""); [done|reflexivity].
Qed.

Lemma warnings_app (l1 l2 : list (Level * string)) :
  warnings (l1 ++ l2) = warnings l1 ++ warnings l2.
Proof. apply omap_app. Qed.

Section Extractor.

Context (w : World).

(** Case analysis on what Spark answers, and on the tests of
    [save_as_parquet]. *)
Ltac split_world :=
  repeat match goal with
  | |- context [session_error w] => destruct (session_error w); simpl
  | |- context [match jdbc w ?a ?b ?c with _ => _ end] => destruct (jdbc w a b c); simpl
  | |- context [bool_decide (lower ?c ∈ valid_methods)] =>
      destruct (bool_decide (lower c ∈ valid_methods)); simpl
  | |- context [truthy_list ?p] => destruct (truthy_list p); simpl
  | |- context [match parquet_error w ?a ?b ?c ?d with _ => _ end] =>
      destruct (parquet_error w a b c d); simpl
  end.

(** C9. Given a (non-empty) query, [extract_from_sql_server] issues one
    read, of the query wrapped as the subquery [custom_query], and returns
    what that read gives; neither depends on the table name passed along. *)
Theorem query_takes_precedence (server database : string) (table : option string)
    (username password q : string) (st : State) :
  q ≠ "" →
  let read := JdbcRead (jdbc_url server database) (Some ("(" +:+ q +:+ ") AS custom_query"))
                (connection_properties username password) in
  let run := extract_from_sql_server w server database table username password (Some q) st in
  trace run.2 = trace st ++ [read]
  ∧ run.1 = match jdbc w (jdbc_url server database) (Some ("(" +:+ q +:+ ") AS custom_query"))
                    (connection_properties username password) with
            | inl df => Ok df
            | inr msg => Raise (DriverError msg)
            end
  ∧ ∀ other : option string,
      let run' := extract_from_sql_server w server database other username password
                    (Some q) st in
      run'.1 = run.1 ∧ trace run'.2 = trace run.2.
Proof.
  intros Hq read run.
  assert (Hrun : ∀ t : option string,
    let r := extract_from_sql_server w server database t username password (Some q) st in
    trace r.2 = trace st ++ [read]
    ∧ r.1 = match jdbc w (jdbc_url server database)
                    (Some ("(" +:+ q +:+ ") AS custom_query"))
                    (connection_properties username password) with
            | inl df => Ok df
            | inr msg => Raise (DriverError msg)
            end).
  { intros t. unfold extract_from_sql_server, spark_read_jdbc. rewrite (truthy_Some q Hq).
    run. simpl. destruct (jdbc w _ _ _); simpl; done. }
  destruct (Hrun table) as [Ht Hr]. split; [exact Ht|]. split; [exact Hr|].
  intros other run'. destruct (Hrun other) as [Ht' Hr']. subst run run'.
  rewrite Ht, Ht', Hr, Hr'. done.
Qed.

(** C5, as the code has it. Whatever the codec name, [save_as_parquet]
    issues exactly one write. A name that is, in lower case, one of
    [snappy], [gzip], [lzo], [zstd] and [none] is passed to the engine as
    given, and no warning is logged; any other name is replaced by [snappy],
    with one warning. The validation itself never raises: the call returns
    or fails as the engine answers for the codec used, whichever it is, so
    that an unrecognized name has the result and the engine call of
    [snappy]. *)
Theorem unrecognized_codec_falls_back (df : DataFrame) (output_path name : string)
    (partition_columns : option (list string)) (st : State) :
  let recognized := bool_decide (lower name ∈ ["snappy"; "gzip"; "lzo"; "zstd"; "none"]) in
  let used := if recognized then name else "snappy" in
  let written := withColumn df "extraction_timestamp" (VText (now w)) in
  let parts := if truthy_list partition_columns then partition_columns else None in
  let run := save_as_parquet w df output_path name partition_columns st in
  trace run.2 = trace st ++ [ParquetWrite output_path used parts "overwrite" written]
  ∧ warnings (log run.2)
    = warnings (log st)
      ++ (if recognized then []
          else ["Invalid compression method: " +:+ name +:+ ". Using snappy instead."])
  ∧ run.1 = match parquet_error w output_path used parts written with
            | Some msg => Raise (DriverError msg)
            | None => Ok tt
            end
  ∧ (recognized = false →
     let default_run := save_as_parquet w df output_path "snappy" partition_columns st in
     run.1 = default_run.1 ∧ trace run.2 = trace default_run.2).
Proof.
  assert (Hrun : ∀ codec : string,
    let recognized := bool_decide (lower codec ∈ valid_methods) in
    let used := if recognized then codec else "snappy" in
    let written := withColumn df "extraction_timestamp" (VText (now w)) in
    let parts := if truthy_list partition_columns then partition_columns else None in
    let run := save_as_parquet w df output_path codec partition_columns st in
    trace run.2 = trace st ++ [ParquetWrite output_path used parts "overwrite" written]
    ∧ warnings (log run.2)
      = warnings (log st)
        ++ (if recognized then []
            else ["Invalid compression method: " +:+ codec +:+ ". Using snappy instead."])
    ∧ run.1 = match parquet_error w output_path used parts written with
              | Some msg => Raise (DriverError msg)
              | None => Ok tt
              end).
  { intros codec. cbn zeta. unfold save_as_parquet, write_parquet. run.
    destruct (bool_decide (lower codec ∈ valid_methods)); simpl;
      destruct (truthy_list partition_columns); simpl;
      destruct (parquet_error w _ _ _ _); simpl;
      rewrite ?warnings_app; simpl; rewrite ?app_nil_r, <- ?app_assoc; done. }
  intros recognized used written parts run.
  change ["snappy"; "gzip"; "lzo"; "zstd"; "none"] with valid_methods in recognized.
  destruct (Hrun name) as (Ht & Hw & Hr). fold recognized used written parts run in Ht, Hw, Hr.
  split; [exact Ht|]. split; [exact Hw|]. split; [exact Hr|].
  intros Hno default_run. destruct (Hrun "snappy") as (Ht' & _ & Hr').
  fold default_run in Ht', Hr'.
  rewrite (bool_decide_eq_true_2 (lower "snappy" ∈ valid_methods)) in Ht', Hr'
    by (by repeat constructor).
  subst used. rewrite Hno in Ht, Hr. fold written parts in Ht', Hr'.
  split; [by rewrite Hr, Hr'|by rewrite Ht, Ht'].
Qed.

(** C1, as the code has it. On a command line that [parse_args] accepts:
    with neither a table nor a query, [main] ends in [parser.error] with
    nothing issued (the state is untouched); with both, and the connection
    parameters given, [main] is not refused: it starts the Spark session
    and, the session being up, reads with the query. *)
Theorem selector_validation (cli : Args) (st : State) :
  compression cli ∈ valid_methods →
  (truthy (table cli) = false → truthy (query cli) = false →
   main w cli st = (Raise (SystemExit 2 "Either --table or --query must be specified"), st))
  ∧ (truthy (table cli) = true → truthy (query cli) = true →
     truthy (server cli) = true → truthy (database cli) = true →
     truthy (username cli) = true → truthy (password cli) = true →
     let run := main w cli st in
     let read := JdbcRead (jdbc_url (default "" (server cli)) (default "" (database cli)))
                   (Some ("(" +:+ default "" (query cli) +:+ ") AS custom_query"))
                   (connection_properties (default "" (username cli))
                      (default "" (password cli))) in
     (∀ status msg, run.1 ≠ Raise (SystemExit status msg))
     ∧ (∃ rest, trace run.2 = trace st ++ SparkGetOrCreate (app_name cli) :: rest)
     ∧ (session_error w = None →
        ∃ rest, trace run.2 = trace st ++ SparkGetOrCreate (app_name cli) :: read :: rest)).
Proof.
  intros Hc. split.
  - intros Ht Hq. unfold main, parse_args. rewrite bool_decide_eq_true_2 by done.
    run. rewrite Ht, Hq. reflexivity.
  - intros Ht Hq Hs Hd Hu Hp run read. subst run read. unfold_main.
    rewrite bool_decide_eq_true_2 by done. run. rewrite Ht, Hq. simpl. run.
    rewrite Hs, Hd, Hu, Hp. simpl.
    split_world;
      (split; [intros ? ?; discriminate|]);
      (split; [rewrite <- ?app_assoc; simpl; eauto|]);
      intros Hn; try discriminate Hn; rewrite <- ?app_assoc; simpl; eauto.
Qed.

(** X1. The extractor's half of C8: whatever Spark answers and wherever
    [main] ends, no Spark session is left running. *)
Lemma main_stops_session (cli : Args) (st : State) :
  session_active st = false → session_active (main w cli st).2 = false.
Proof.
  intros Hst. unfold_main. run.
  destruct (bool_decide (compression cli ∈ valid_methods)); simpl; [|done].
  destruct (truthy (table cli)), (truthy (query cli)); simpl; try done;
    (destruct (truthy (server cli)); simpl; [|done]);
    (destruct (truthy (database cli)); simpl; [|done]);
    (destruct (truthy (username cli)); simpl; [|done]);
    (destruct (truthy (password cli)); simpl; [|done]);
    split_world; simpl; done.
Qed.

End Extractor.

End ExtractFacts.

(** ** The restorer: policies and whole runs *)

Module RestoreRuns.
Import Py Restore RestoreSpec RestoreFacts.

Section Policies.
Context (w : World).

Lemma reconcile_absent (engine : string) (df : DataFrame) (name : string)
    (schema : option string) (if_exists : string) (st : State) :
  name ∉ get_table_names w schema (db st) →
  let key := (resolve w schema, name) in
  ∃ st', create_table_if_not_exists w engine df name schema if_exists st = (Ok tt, st')
         ∧ db st' = <[key := {| t_columns := mapped_columns df; t_rows := [] |}]> (db st)
         ∧ trace st' = trace st ++ [CreateTable key (mapped_columns df)]
         ∧ sql_calls st' = sql_calls st.
Proof.
  intros Hout key.
  assert (Hnone : db st !! key = None).
  { destruct (db st !! key) eqn:E; [|done]. exfalso. apply Hout.
    apply elem_of_get_table_names. eauto. }
  unfold create_table_if_not_exists. run.
  rewrite bool_decide_eq_false_2; [|exact Hout]. simpl.
  unfold create_all. rewrite map_to_list_singleton. simpl.
  unfold create_checkfirst. run. simpl. fold key. rewrite Hnone. simpl.
  eexists. split; [reflexivity|]. done.
Qed.

Lemma reconcile_append (engine : string) (df : DataFrame) (name : string)
    (schema : option string) (if_exists : string) (st : State) :
  name ∈ get_table_names w schema (db st) →
  if_exists ≠ "fail" → if_exists ≠ "replace" →
  create_table_if_not_exists w engine df name schema if_exists st
  = (Ok tt, add_log INFO ("Checking if table " +:+ name +:+ " exists") st).
Proof.
  intros Hin Hf Hr. unfold create_table_if_not_exists. run.
  rewrite bool_decide_eq_true_2; [|exact Hin].
  apply String.eqb_neq in Hf, Hr. rewrite Hf, Hr. reflexivity.
Qed.

Lemma reconcile_replace_default (engine : string) (df : DataFrame) (name : string) (st : State) :
  name ∈ get_table_names w None (db st) →
  let key := (resolve w None, name) in
  ∃ st', create_table_if_not_exists w engine df name None "replace" st = (Ok tt, st')
         ∧ db st' = <[key := {| t_columns := mapped_columns df; t_rows := [] |}]> (db st)
         ∧ trace st' = trace st ++ [DropTable key; CreateTable key (mapped_columns df)]
         ∧ sql_calls st' = sql_calls st.
Proof.
  intros Hin key. pose proof Hin as Hex. apply elem_of_get_table_names in Hex.
  destruct Hex as [t Ht]. fold key in Ht.
  unfold create_table_if_not_exists. run.
  rewrite bool_decide_eq_true_2; [|exact Hin]. simpl. run. simpl.
  fold key. rewrite Ht. run.
  rewrite insert_empty. simpl.
  rewrite bool_decide_eq_true_2 by (rewrite lookup_singleton_eq; eauto).
  rewrite lookup_singleton_eq. unfold table_drop. run. simpl.
  fold key. rewrite Ht. simpl.
  unfold create_all. rewrite map_to_list_singleton. simpl.
  unfold create_checkfirst. run. simpl.
  fold key. rewrite lookup_delete_eq. simpl.
  eexists. split; [reflexivity|]. simpl. rewrite insert_delete_eq, <- app_assoc. done.
Qed.

#[local] Instance others_kept_preorder (key : string * string) : PreOrder (others_kept key).
Proof.
  split.
  - intros st key' _. reflexivity.
  - intros st1 st2 st3 H12 H23 key' Hne. rewrite (H23 _ Hne). by apply H12.
Qed.

Ltac kept_side :=
  lazymatch goal with
  | |- any_error _ => exact I
  | |- others_kept _ _ _ => intros ? ?; reflexivity
  end.

Ltac keeps_others := within_with ltac:(idtac; kept_side).

Lemma reconcile_keeps_others (engine : string) (df : DataFrame) (name : string)
    (schema : option string) (if_exists : string) :
  within (others_kept (resolve w schema, name)) any_error
    (create_table_if_not_exists w engine df name schema if_exists).
Proof.
  intros st. split; [|intros; exact I].
  destruct (decide (name ∈ get_table_names w schema (db st))) as [Hin|Hout].
  - destruct (decide (if_exists = "fail")) as [->|Hf].
    { rewrite create_table_fail by done. intros key' _. reflexivity. }
    destruct (decide (if_exists = "replace")) as [->|Hr].
    + destruct schema as [s|].
      * destruct (replace_with_schema w engine df name s st Hin) as (st' & -> & Hdb & _).
        intros key' _. simpl. by rewrite Hdb.
      * destruct (reconcile_replace_default engine df name st Hin) as (st' & -> & Hdb & _).
        intros key' Hne. simpl. rewrite Hdb. by rewrite lookup_insert_ne.
    + rewrite reconcile_append by done. intros key' _. reflexivity.
  - destruct (reconcile_absent engine df name schema if_exists st Hout) as (st' & -> & Hdb & _).
    intros key' Hne. simpl. rewrite Hdb. by rewrite lookup_insert_ne.
Qed.

Lemma insert_batch_keeps_others (df : DataFrame) (name : string) (schema : option string)
    (B N i : Z) :
  within (others_kept (resolve w schema, name)) any_error
    (insert_batch w df name schema B N i).
Proof.
  intros st. split; [|intros; exact I].
  unfold insert_batch, to_sql. run.
  pose proof (resolve_truthy w schema) as Hres.
  destruct (truthy schema); simpl; destruct (to_sql_error w _); simpl;
    intros key' Hne; simpl; try rewrite Hres; by rewrite ?lookup_insert_ne.
Qed.

Lemma lift_keeps_others {A} (key : string * string) (r : result A) :
  within (others_kept key) any_error (lift r).
Proof. intros st. split; [intros key' _; reflexivity|intros; exact I]. Qed.

#[local] Hint Resolve reconcile_keeps_others insert_batch_keeps_others lift_keeps_others
  : within_db.

Lemma insert_keeps_others (engine : string) (df : DataFrame) (name : string)
    (schema : option string) (B : Z) (if_exists : string) :
  within (others_kept (resolve w schema, name)) any_error
    (insert_data_to_sql w engine df name schema B if_exists).
Proof. unfold insert_data_to_sql, logger_info. keeps_others. Qed.

(** X9. [insert_data_to_sql] touches one table only: any other table of the
    destination, in this schema or another, is after the call what it was
    before, whatever the policy, the batch size and the outcome. *)
Theorem insert_keeps_other_tables (engine : string) (df : DataFrame) (name : string)
    (schema : option string) (B : Z) (if_exists : string) (st : State)
    (other : string * string) :
  other ≠ (resolve w schema, name) →
  db (insert_data_to_sql w engine df name schema B if_exists st).2 !! other
  = db st !! other.
Proof.
  intros Hne. destruct (insert_keeps_others engine df name schema B if_exists st) as [H _].
  by apply H.
Qed.

(** The destination after a run of [insert_data_to_sql] in which no call
    fails, from what the reconciliation left under the key. *)
Lemma insert_outcome (engine : string) (df : DataFrame) (name : string)
    (schema : option string) (B : Z) (if_exists : string) (st st1 : State) (t : DbTable) :
  (0 < B)%Z →
  (∀ k, to_sql_error w k = None) →
  create_table_if_not_exists w engine df name schema if_exists
    (add_log INFO ("Beginning data insertion to " +:+ name) st) = (Ok tt, st1) →
  let key := (resolve w schema, name) in
  db st1 !! key = Some t →
  ∃ st2, insert_data_to_sql w engine df name schema B if_exists st = (Ok tt, st2)
         ∧ db st2 = <[key := {| t_columns := t_columns t; t_rows := t_rows t ++ rows df |}]>
                      (db st)
         ∧ trace st2 = trace st1 ++ (Insert key <$> batches_of df B).
Proof.
  intros HB Hok Hc key Ht.
  destruct (insert_runs_all_batches w engine df name schema B if_exists st st1)
    as (st2 & Hrun & Htr & _ & Hkeep); [lia|exact Hc|intros; apply Hok|].
  fold key in Htr, Hkeep.
  destruct (batches_shape df B HB) as (_ & _ & _ & Hcat & _). rewrite Hcat in Hkeep.
  exists st2. split; [exact Hrun|]. split; [|exact Htr].
  apply map_eq. intros k. destruct (decide (k = key)) as [->|Hne].
  - rewrite lookup_insert_eq. by apply Hkeep.
  - rewrite lookup_insert_ne by done.
    destruct (insert_keeps_others engine df name schema B if_exists st) as [H _].
    rewrite Hrun in H. by apply H.
Qed.

(** X6. The target table not being there, every policy does the same: the
    table is created with one column per column of the frame, typed by
    [get_sql_data_type] and in the frame's order, then the batches are
    inserted in order, and the table ends holding the rows of the frame. *)
Theorem absent_table_is_created_and_filled (engine : string) (df : DataFrame)
    (name : string) (schema : option string) (B : Z) (if_exists : string) (st : State) :
  name ∉ get_table_names w schema (db st) →
  (0 < B)%Z →
  (∀ k, to_sql_error w k = None) →
  let key := (resolve w schema, name) in
  ∃ st', insert_data_to_sql w engine df name schema B if_exists st = (Ok tt, st')
         ∧ db st' = <[key := filled df]> (db st)
         ∧ trace st' = trace st ++ CreateTable key (mapped_columns df)
                                :: (Insert key <$> batches_of df B)
         ∧ (mapped_columns df).*1 = (dtypes df).*1.
Proof.
  intros Hout HB Hok key.
  destruct (reconcile_absent engine df name schema if_exists
              (add_log INFO ("Beginning data insertion to " +:+ name) st) Hout)
    as (st1 & Hc & Hdb & Htr & _).
  destruct (insert_outcome engine df name schema B if_exists st st1
              {| t_columns := mapped_columns df; t_rows := [] |} HB Hok Hc)
    as (st2 & Hrun & Hdb2 & Htr2).
  { rewrite Hdb. apply lookup_insert_eq. }
  exists st2. split; [exact Hrun|]. split; [exact Hdb2|]. split.
  - rewrite Htr2, Htr. simpl. by rewrite <- app_assoc.
  - unfold mapped_columns. rewrite <- list_fmap_compose. by apply list_fmap_ext.
Qed.

(** X7. The target table being there, under [append] (or any policy that
    is neither [fail] nor [replace]) nothing is dropped or created: the
    inserts are the only calls, and the rows of the frame come after the
    rows the table held, its columns unchanged. Nothing removes duplicates:
    the same call again appends the frame a second time. *)
Theorem append_policy_appends (engine : string) (df : DataFrame) (name : string)
    (schema : option string) (B : Z) (if_exists : string) (st : State) (t : DbTable) :
  db st !! (resolve w schema, name) = Some t →
  if_exists ≠ "fail" → if_exists ≠ "replace" →
  (0 < B)%Z →
  (∀ k, to_sql_error w k = None) →
  let key := (resolve w schema, name) in
  ∃ st', insert_data_to_sql w engine df name schema B if_exists st = (Ok tt, st')
         ∧ db st' = <[key := {| t_columns := t_columns t; t_rows := t_rows t ++ rows df |}]>
                      (db st)
         ∧ trace st' = trace st ++ (Insert key <$> batches_of df B)
         ∧ rows_of (insert_data_to_sql w engine df name schema B if_exists st').2 key
           = t_rows t ++ rows df ++ rows df.
Proof.
  intros Ht Hf Hr HB Hok key.
  assert (Hgen : ∀ (st : State) (t : DbTable), db st !! key = Some t →
    ∃ st', insert_data_to_sql w engine df name schema B if_exists st = (Ok tt, st')
           ∧ db st' = <[key := {| t_columns := t_columns t; t_rows := t_rows t ++ rows df |}]>
                        (db st)
           ∧ trace st' = trace st ++ (Insert key <$> batches_of df B)).
  { clear st t Ht. intros st t Ht.
    assert (Hin : name ∈ get_table_names w schema
                    (db (add_log INFO ("Beginning data insertion to " +:+ name) st))).
    { apply elem_of_get_table_names. simpl. eauto. }
    pose proof (reconcile_append engine df name schema if_exists _ Hin Hf Hr) as Hc.
    destruct (insert_outcome engine df name schema B if_exists st _ t HB Hok Hc)
      as (st2 & Hrun & Hdb2 & Htr2); [exact Ht|].
    exists st2. split; [exact Hrun|]. split; [exact Hdb2|]. exact Htr2. }
  destruct (Hgen st t Ht) as (st1 & Hrun & Hdb & Htr).
  exists st1. split; [exact Hrun|]. split; [exact Hdb|]. split; [exact Htr|].
  destruct (Hgen st1 {| t_columns := t_columns t; t_rows := t_rows t ++ rows df |})
    as (st2 & Hrun2 & Hdb2 & _).
  { rewrite Hdb. apply lookup_insert_eq. }
  rewrite Hrun2. unfold rows_of. simpl. rewrite Hdb2, lookup_insert_eq. simpl.
  by rewrite <- app_assoc.
Qed.

(** X8. Under [replace], without a schema, the table ends holding the frame
    under the mapped columns, whatever it held and whether it was there:
    dropped and created when it was, created when it was not. Running the
    same call again leaves the destination as it is. *)
Theorem replace_fills_anew (engine : string) (df : DataFrame) (name : string) (B : Z)
    (st : State) :
  (0 < B)%Z →
  (∀ k, to_sql_error w k = None) →
  let key := (resolve w None, name) in
  ∃ st', insert_data_to_sql w engine df name None B "replace" st = (Ok tt, st')
         ∧ db st' = <[key := filled df]> (db st)
         ∧ (∃ ddl, trace st' = trace st ++ ddl ++ (Insert key <$> batches_of df B)
                   ∧ ddl = if bool_decide (name ∈ get_table_names w None (db st))
                           then [DropTable key; CreateTable key (mapped_columns df)]
                           else [CreateTable key (mapped_columns df)])
         ∧ db (insert_data_to_sql w engine df name None B "replace" st').2 = db st'.
Proof.
  intros HB Hok key.
  assert (Hgen : ∀ st : State,
    ∃ st', insert_data_to_sql w engine df name None B "replace" st = (Ok tt, st')
           ∧ db st' = <[key := filled df]> (db st)
           ∧ ∃ ddl, trace st' = trace st ++ ddl ++ (Insert key <$> batches_of df B)
                    ∧ ddl = if bool_decide (name ∈ get_table_names w None (db st))
                            then [DropTable key; CreateTable key (mapped_columns df)]
                            else [CreateTable key (mapped_columns df)]);
    [clear st; intros st|
     destruct (Hgen st) as (st1 & Hrun & Hdb & Htr);
     destruct (Hgen st1) as (st2 & Hrun2 & Hdb2 & _);
     exists st1; split; [exact Hrun|]; split; [exact Hdb|]; split; [exact Htr|];
     rewrite Hrun2; simpl; rewrite Hdb2, Hdb; apply insert_insert_eq].
  set (st0 := add_log INFO ("Beginning data insertion to " +:+ name) st).
  assert (Hc : ∃ st1 ddl, create_table_if_not_exists w engine df name None "replace" st0
                          = (Ok tt, st1)
             ∧ db st1 = <[key := {| t_columns := mapped_columns df; t_rows := [] |}]> (db st)
             ∧ trace st1 = trace st ++ ddl
             ∧ ddl = if bool_decide (name ∈ get_table_names w None (db st))
                     then [DropTable key; CreateTable key (mapped_columns df)]
                     else [CreateTable key (mapped_columns df)]).
  { destruct (decide (name ∈ get_table_names w None (db st))) as [Hin|Hout].
    - destruct (reconcile_replace_default engine df name st0 Hin) as (st1 & H1 & H2 & H3 & _).
      exists st1, [DropTable key; CreateTable key (mapped_columns df)].
      rewrite bool_decide_eq_true_2 by done. done.
    - destruct (reconcile_absent engine df name None "replace" st0 Hout)
        as (st1 & H1 & H2 & H3 & _).
      exists st1, [CreateTable key (mapped_columns df)].
      rewrite bool_decide_eq_false_2 by done. done. }
  destruct Hc as (st1 & ddl & Hc & Hdb & Htr & Hddl).
  destruct (insert_outcome engine df name None B "replace" st st1
              {| t_columns := mapped_columns df; t_rows := [] |} HB Hok Hc)
    as (st2 & Hrun & Hdb2 & Htr2).
  { rewrite Hdb. apply lookup_insert_eq. }
  exists st2. split; [exact Hrun|]. split; [exact Hdb2|].
  exists ddl. split; [|exact Hddl]. fold key in Htr2. rewrite Htr2, Htr. by rewrite <- app_assoc.
Qed.

(** X10. A frame without rows: the table is still reconciled (here
    created, with the mapped columns), no turn of the loop is taken and no
    [to_sql] call is made, whatever the batch size other than zero, positive
    or negative. *)
Theorem empty_frame_creates_empty_table (engine : string) (df : DataFrame) (name : string)
    (schema : option string) (B : Z) (if_exists : string) (st : State) :
  rows df = [] →
  B ≠ 0%Z →
  name ∉ get_table_names w schema (db st) →
  let key := (resolve w schema, name) in
  ∃ st', insert_data_to_sql w engine df name schema B if_exists st = (Ok tt, st')
         ∧ db st' = <[key := {| t_columns := mapped_columns df; t_rows := [] |}]> (db st)
         ∧ trace st' = trace st ++ [CreateTable key (mapped_columns df)]
         ∧ sql_calls st' = sql_calls st.
Proof.
  intros Hrows HB Hout key.
  destruct (reconcile_absent engine df name schema if_exists
              (add_log INFO ("Beginning data insertion to " +:+ name) st) Hout)
    as (st1 & Hc & Hdb & Htr & Hcalls).
  rewrite (insert_after_reconcile w _ _ _ _ _ _ _ _ Hc). cbn zeta. rewrite Hrows.
  change (Z.of_nat (length (@nil row))) with 0%Z.
  assert (Hr : Py.range 0 0 B = Ok []).
  { unfold Py.range, range_len. destruct (Z.eqb_spec B 0) as [|_]; [done|].
    destruct (0 <? B)%Z; reflexivity. }
  rewrite Hr. simpl. eexists. split; [reflexivity|]. simpl. done.
Qed.

End Policies.

#[local] Instance extended_by_preorder (P : Event → Prop) : PreOrder (extended_by P).
Proof.
  split.
  - intros st. exists []. by rewrite app_nil_r.
  - intros st1 st2 st3 (e1 & H1 & F1) (e2 & H2 & F2). exists (e1 ++ e2).
    rewrite H2, H1, <- app_assoc. split; [done|]. by apply Forall_app.
Qed.

#[local] Instance no_error_logged_preorder : PreOrder no_error_logged.
Proof.
  split.
  - intros st. reflexivity.
  - intros st1 st2 st3 H1 H2. unfold no_error_logged in *. congruence.
Qed.

Ltac extended_side :=
  lazymatch goal with
  | |- any_error _ => exact I
  | |- extended_by _ _ _ =>
      eexists; split; [simpl; first [symmetry; apply app_nil_r | reflexivity]|];
      repeat first [apply Forall_nil_2 | apply Forall_cons_2 | exact I]
  end.

Ltac extends := within_with ltac:(idtac; extended_side).

Ltac quiet_side :=
  lazymatch goal with
  | |- caught _ => first [assumption | reflexivity]
  | |- no_error_logged _ _ =>
      unfold no_error_logged, errors; simpl; rewrite ?omap_app; simpl;
      rewrite ?app_nil_r; reflexivity
  end.

Ltac quiet := within_with ltac:(idtac; quiet_side).

#[local] Instance handles_kept_preorder : PreOrder handles_kept.
Proof.
  split.
  - intros st. reflexivity.
  - intros st1 st2 st3 H1 H2. unfold handles_kept in *. congruence.
Qed.

Ltac handles_side :=
  lazymatch goal with
  | |- any_error _ => exact I
  | |- handles_kept _ _ => reflexivity
  end.

Ltac keeps_handles := within_with ltac:(idtac; handles_side).

Section Pipeline.
Context (w : World).

Lemma lift_range_extends (P : Event → Prop) (start stop step : Z) :
  within (extended_by P) any_error (lift (Py.range start stop step)).
Proof. intros st. split; [reflexivity|intros; exact I]. Qed.

Lemma reflect_extends (P : Event → Prop) (only : list string) (schema : option string) :
  within (extended_by P) any_error (reflect w only schema).
Proof. induction only as [|n only IH]; simpl; extends. Qed.

#[local] Hint Resolve lift_range_extends reflect_extends : within_db.

Lemma insert_extends (engine : string) (df : DataFrame) (name : string)
    (schema : option string) (B : Z) (if_exists : string) :
  within (extended_by is_destination) any_error
    (insert_data_to_sql w engine df name schema B if_exists).
Proof.
  unfold insert_data_to_sql, create_table_if_not_exists, create_all, create_checkfirst,
    table_drop, insert_batch, to_sql, logger_info.
  extends.
Qed.

Lemma load_extends (p : string) :
  within (extended_by is_duck) any_error (load_parquet_to_pandas w p).
Proof.
  unfold load_parquet_to_pandas, connect_to_duckdb, conn_execute, conn_close, logger_info.
  extends.
Qed.

#[local] Hint Resolve insert_extends load_extends : within_db.

(** X12. Whatever the arguments and the answers of the engines, the calls
    of a run come in two phases: DuckDB calls first, then calls to the
    destination. Nothing is sent to the destination before the archive has
    been read, and DuckDB is not touched once writing has begun. *)
Theorem run_reads_before_it_writes (cli : Args) (st : State) :
  ∃ ducks writes, trace (main w cli st).2 = trace st ++ ducks ++ writes
                  ∧ Forall is_duck ducks ∧ Forall is_destination writes.
Proof.
  unfold main, parse_args. destruct (bool_decide _).
  2:{ exists [], []. rewrite bind_raise_l. simpl. by rewrite app_nil_r. }
  rewrite bind_ret_l. unfold try_except.
  match goal with |- context [(?load ≫= ?k) st] =>
    set (K := k); set (L := load) end.
  assert (HL : within (extended_by is_duck) any_error L).
  { unfold L, connect_to_duckdb, conn_execute, conn_close, logger_info. extends. }
  assert (HK : ∀ df, within (extended_by is_destination) any_error (K df)).
  { intros df. unfold K, create_sqlalchemy_engine, logger_info. extends. }
  destruct (HL st) as [(ducks & Hd & Fd) _].
  unfold mbind at 1, M_bind at 1. destruct (L st) as [[df|e] st1]; simpl in Hd.
  - destruct (HK df st1) as [(writes & Hw & Fw) _].
    exists ducks, writes. destruct (K df st1) as [[[]|e] st2]; simpl in Hw |- *.
    + by rewrite Hw, Hd, <- app_assoc.
    + destruct (is_exception e); simpl; by rewrite Hw, Hd, <- app_assoc.
  - exists ducks, []. destruct (is_exception e); simpl; by rewrite Hd, app_nil_r.
Qed.

Lemma lift_range_quiet (start stop step : Z) :
  within no_error_logged caught (lift (Py.range start stop step)).
Proof.
  unfold lift, Py.range. intros st. split; [reflexivity|]. simpl.
  destruct (step =? 0)%Z; [intros e [= <-]; reflexivity|discriminate].
Qed.

Lemma reflect_quiet (only : list string) (schema : option string) :
  within no_error_logged caught (reflect w only schema).
Proof. induction only as [|n only IH]; simpl; quiet. Qed.

#[local] Hint Resolve lift_range_quiet reflect_quiet : within_db.

Lemma body_quiet (cli : Args) :
  within no_error_logged caught
    (df ←
       (if truthy (transform_query cli) then
          let query := default "" (transform_query cli) in
          logger_info ("Applying transformation query: " +:+ query) ;;
          connect_to_duckdb ":memory:" ;;
          conn_execute w (view_statement (parquet_path cli)) ;;
          df ← conn_execute w query ;
          conn_close ;;
          mret df
        else load_parquet_to_pandas w (parquet_path cli)) ;
     engine ← create_sqlalchemy_engine (server cli) (database cli) (username cli)
                (password cli) (driver cli) ;
     insert_data_to_sql w engine df (table_name cli) (schema cli) (batch_size cli)
       (if_exists cli) ;;
     logger_info "Data restoration completed successfully").
Proof.
  unfold load_parquet_to_pandas, connect_to_duckdb, conn_execute, conn_close,
    create_sqlalchemy_engine, insert_data_to_sql, create_table_if_not_exists, create_all,
    create_checkfirst, table_drop, insert_batch, to_sql, logger_info.
  quiet.
Qed.

(** X13. A run logs at level ERROR exactly when it ends with an exception
    that [except Exception] catches, and then one line, made of the fixed
    prefix and the message of the exception, as [main] re-raises it. A run
    that returns, or that ends in argparse's [SystemExit], logs no error. *)
Theorem run_logs_its_error_once (cli : Args) (st : State) :
  errors (log (main w cli st).2)
  = errors (log st)
    ++ match (main w cli st).1 with
       | Raise e =>
           if is_exception e then ["Error during restoration process: " +:+ exn_str e] else []
       | Ok _ => []
       end.
Proof.
  unfold main, parse_args. destruct (bool_decide _).
  2:{ rewrite bind_raise_l. simpl. by rewrite app_nil_r. }
  rewrite bind_ret_l. unfold try_except.
  destruct (body_quiet cli st) as [HR HE].
  match goal with |- context [(?load ≫= ?k) st] => destruct ((load ≫= k) st) as [[[]|e] st1] end;
    simpl in *.
  - rewrite app_nil_r. exact HR.
  - rewrite (HE e eq_refl). unfold logger_error. simpl.
    rewrite (HE e eq_refl). unfold errors at 1. rewrite omap_app. simpl.
    fold (errors (log st1)). by rewrite HR.
Qed.

Lemma lift_range_handles (start stop step : Z) :
  within handles_kept any_error (lift (Py.range start stop step)).
Proof. intros st. split; [reflexivity|intros; exact I]. Qed.

Lemma reflect_handles (only : list string) (schema : option string) :
  within handles_kept any_error (reflect w only schema).
Proof. induction only as [|n only IH]; simpl; keeps_handles. Qed.

#[local] Hint Resolve lift_range_handles reflect_handles : within_db.

Lemma insert_keeps_handles (engine : string) (df : DataFrame) (name : string)
    (schema : option string) (B : Z) (if_exists : string) :
  within handles_kept any_error (insert_data_to_sql w engine df name schema B if_exists).
Proof.
  unfold insert_data_to_sql, create_table_if_not_exists, create_all, create_checkfirst,
    table_drop, insert_batch, to_sql, logger_info.
  keeps_handles.
Qed.

(** X14. A run with a transformation query, the target table not being
    there and the engines answering: the view over the archive is created,
    the query is run, the connection is closed, the table is created from
    the frame the query returned and filled with it in batches. The frame
    of the view itself plays no part. *)
Theorem run_restores_the_query_result (cli : Args) (st : State) (view df : DataFrame) :
  truthy (transform_query cli) = true →
  if_exists cli ∈ ["fail"; "replace"; "append"] →
  duck_execute w (view_statement (parquet_path cli)) = inl view →
  duck_execute w (default "" (transform_query cli)) = inl df →
  table_name cli ∉ get_table_names w (schema cli) (db st) →
  (0 < batch_size cli)%Z →
  (∀ k, to_sql_error w k = None) →
  let key := (resolve w (schema cli), table_name cli) in
  ∃ st', main w cli st = (Ok tt, st')
         ∧ db st' = <[key := filled df]> (db st)
         ∧ duck_open st' = duck_open st
         ∧ trace st' = trace st
                       ++ [DuckConnect ":memory:";
                           DuckExecute (view_statement (parquet_path cli));
                           DuckExecute (default "" (transform_query cli));
                           DuckClose;
                           CreateTable key (mapped_columns df)]
                       ++ (Insert key <$> batches_of df (batch_size cli)).
Proof.
  intros Hq Hif Hview Hquery Hout HB Hok key.
  unfold main, parse_args. rewrite bool_decide_eq_true_2 by done.
  rewrite bind_ret_l, Hq.
  unfold try_except, connect_to_duckdb, conn_execute, conn_close, create_sqlalchemy_engine.
  run. simpl. rewrite Hview. simpl. rewrite Hquery. simpl.
  match goal with |- context [insert_data_to_sql w ?e df _ _ _ _ ?s] =>
    set (engine := e); set (st1 := s) end.
  destruct (reconcile_absent w engine df (table_name cli) (schema cli) (if_exists cli)
              (add_log INFO ("Beginning data insertion to " +:+ table_name cli) st1))
    as (st2 & Hc & Hdb & Htr & _); [exact Hout|].
  destruct (insert_outcome w engine df (table_name cli) (schema cli) (batch_size cli)
              (if_exists cli) st1 st2 {| t_columns := mapped_columns df; t_rows := [] |}
              HB Hok Hc) as (st3 & Hrun & Hdb3 & Htr3).
  { rewrite Hdb. apply lookup_insert_eq. }
  rewrite Hrun. eexists. split; [reflexivity|]. simpl. fold key in Htr3, Htr, Hdb3.
  split; [exact Hdb3|]. split.
  - destruct (insert_keeps_handles engine df (table_name cli) (schema cli) (batch_size cli)
                (if_exists cli) st1) as [H _]. rewrite Hrun in H.
    unfold handles_kept in H. simpl in H. exact H.
  - rewrite Htr3, Htr. simpl. rewrite <- !app_assoc. done.
Qed.

(** X15. A run without a transformation query, the path existing, the
    target table not being there and the engines answering: one read of the
    whole archive, the connection closed, then the table created from that
    frame and filled with it in batches. *)
Theorem run_restores_the_archive (cli : Args) (st : State) (df : DataFrame) :
  truthy (transform_query cli) = false →
  if_exists cli ∈ ["fail"; "replace"; "append"] →
  path_exists w (parquet_path cli) = true →
  duck_execute w ("SELECT * FROM read_parquet('" +:+ parquet_path cli +:+ "')") = inl df →
  table_name cli ∉ get_table_names w (schema cli) (db st) →
  (0 < batch_size cli)%Z →
  (∀ k, to_sql_error w k = None) →
  let key := (resolve w (schema cli), table_name cli) in
  ∃ st', main w cli st = (Ok tt, st')
         ∧ db st' = <[key := filled df]> (db st)
         ∧ duck_open st' = duck_open st
         ∧ trace st' = trace st
                       ++ [DuckConnect ":memory:";
                           DuckExecute ("SELECT * FROM read_parquet('" +:+ parquet_path cli
                                        +:+ "')");
                           DuckClose;
                           CreateTable key (mapped_columns df)]
                       ++ (Insert key <$> batches_of df (batch_size cli)).
Proof.
  intros Hq Hif Hpath Hread Hout HB Hok key.
  unfold main, parse_args. rewrite bool_decide_eq_true_2 by done.
  rewrite bind_ret_l, Hq.
  unfold try_except, load_parquet_to_pandas, try_finally, connect_to_duckdb, conn_execute,
    conn_close, create_sqlalchemy_engine.
  run. rewrite Hpath. simpl. rewrite Hread. simpl.
  match goal with |- context [insert_data_to_sql w ?e df _ _ _ _ ?s] =>
    set (engine := e); set (st1 := s) end.
  destruct (reconcile_absent w engine df (table_name cli) (schema cli) (if_exists cli)
              (add_log INFO ("Beginning data insertion to " +:+ table_name cli) st1))
    as (st2 & Hc & Hdb & Htr & _); [exact Hout|].
  destruct (insert_outcome w engine df (table_name cli) (schema cli) (batch_size cli)
              (if_exists cli) st1 st2 {| t_columns := mapped_columns df; t_rows := [] |}
              HB Hok Hc) as (st3 & Hrun & Hdb3 & Htr3).
  { rewrite Hdb. apply lookup_insert_eq. }
  rewrite Hrun. eexists. split; [reflexivity|]. simpl. fold key in Htr3, Htr, Hdb3.
  split; [exact Hdb3|]. split.
  - destruct (insert_keeps_handles engine df (table_name cli) (schema cli) (batch_size cli)
                (if_exists cli) st1) as [H _]. rewrite Hrun in H.
    unfold handles_kept in H. simpl in H. exact H.
  - rewrite Htr3, Htr. simpl. rewrite <- !app_assoc. done.
Qed.

End Pipeline.

Section Progress.
Context (w : World).

Lemma loop_log (df : DataFrame) (name : string) (schema : option string) (B N : Z)
    (offsets : list Z) (st : State) :
  (∀ k, to_sql_error w k = None) →
  ∃ st', for_each offsets (insert_batch w df name schema B N) st = (Ok tt, st')
         ∧ log st'
           = log st
             ++ ((λ i, (INFO, "Inserting batch " +:+ pretty (i `div` B + 1)%Z +:+ "/"
                              +:+ pretty ((N + B - 1) `div` B)%Z
                              +:+ ": rows " +:+ pretty i
                              +:+ " to " +:+ pretty (Z.min (i + B) N))) <$> offsets).
Proof.
  intros Hok. revert st. induction offsets as [|i offsets IH]; intros st.
  - exists st. simpl. by rewrite app_nil_r.
  - cbn [for_each]. unfold mbind, M_bind.
    assert (Hstep : ∃ st0, insert_batch w df name schema B N i st = (Ok tt, st0)
              ∧ log st0 = log st
                  ++ [(INFO, "Inserting batch " +:+ pretty (i `div` B + 1)%Z +:+ "/"
                             +:+ pretty ((N + B - 1) `div` B)%Z
                             +:+ ": rows " +:+ pretty i
                             +:+ " to " +:+ pretty (Z.min (i + B) N))]).
    { unfold insert_batch, to_sql. run.
      destruct (truthy schema); simpl; rewrite Hok; simpl; eauto. }
    destruct Hstep as (st0 & -> & Hl0). destruct (IH st0) as (st' & -> & Hl).
    exists st'. split; [done|]. rewrite Hl, Hl0, fmap_cons, <- app_assoc. done.
Qed.

(** X11. The log of a successful insertion, after the reconciliation: the
    line announcing [N] rows, one progress line per batch, numbered from 1
    out of [(N + B - 1) // B], with the row range [kB] to [min(kB + B, N)],
    and the closing line. The total shown is the number of batches taken. *)
Theorem progress_numbers_the_batches (engine : string) (df : DataFrame) (name : string)
    (schema : option string) (B : Z) (if_exists : string) (st st1 : State) :
  (0 < B)%Z →
  (∀ k, to_sql_error w k = None) →
  create_table_if_not_exists w engine df name schema if_exists
    (add_log INFO ("Beginning data insertion to " +:+ name) st) = (Ok tt, st1) →
  let N := Z.of_nat (length (rows df)) in
  ∃ st2, insert_data_to_sql w engine df name schema B if_exists st = (Ok tt, st2)
         ∧ log st2
           = log st1
             ++ (INFO, "Preparing to insert " +:+ pretty N +:+ " rows")
                :: (progress_line B N <$> seq 0 (length (batches_of df B)))
             ++ [(INFO, "Successfully inserted " +:+ pretty N +:+ " rows into " +:+ name)].
Proof.
  intros HB Hok Hc N.
  destruct (batches_of_offsets df B) as (offsets & Hrange & Hbo); [lia|].
  rewrite (insert_after_reconcile w _ _ _ _ _ _ _ _ Hc). cbn zeta. fold N. fold N in Hrange.
  rewrite Hrange.
  destruct (loop_log df name schema B N offsets
              (add_log INFO ("Preparing to insert " +:+ pretty N +:+ " rows") st1) Hok)
    as (st3 & -> & Hl).
  eexists. split; [reflexivity|]. simpl. rewrite Hl. simpl. rewrite <- !app_assoc. simpl.
  f_equal. f_equal. f_equal.
  rewrite Hbo, length_fmap.
  unfold Py.range in Hrange. destruct (Z.eqb_spec B 0) as [|_]; [lia|].
  injection Hrange as <-. rewrite length_fmap, length_seq, <- list_fmap_compose.
  apply list_fmap_ext. intros _ k _. simpl. unfold progress_line.
  rewrite Z.add_0_l, Z.div_mul by lia. done.
Qed.

End Progress.

End RestoreRuns.

(** ** The extractor: whole runs *)

Module ExtractRuns.
Import Py Extract ExtractCli ExtractSpec ExtractFacts.

Section Runs.
Context (w : World).

Ltac split_world :=
  repeat match goal with
  | |- context [session_error w] => destruct (session_error w); simpl
  | |- context [match jdbc w ?a ?b ?c with _ => _ end] => destruct (jdbc w a b c); simpl
  | |- context [bool_decide (lower ?c ∈ valid_methods)] =>
      destruct (bool_decide (lower c ∈ valid_methods)); simpl
  | |- context [truthy_list ?p] => destruct (truthy_list p); simpl
  | |- context [match parquet_error w ?a ?b ?c ?d with _ => _ end] =>
      destruct (parquet_error w a b c d); simpl
  end.

Ltac split_args cli :=
  destruct (bool_decide (compression cli ∈ valid_methods)); simpl; [|try done];
  destruct (truthy (table cli)), (truthy (query cli)); simpl; try done;
  (destruct (truthy (server cli)); simpl; [|try done]);
  (destruct (truthy (database cli)); simpl; [|try done]);
  (destruct (truthy (username cli)); simpl; [|try done]);
  (destruct (truthy (password cli)); simpl; [|try done]).

(** X16. Whatever the arguments and the answers of the engines, the engine
    calls of a run have one of four shapes: none; a session started and
    never stopped by [main] (it did not come up); session, one read, stop;
    session, one read, one overwriting write, stop. There is never a second
    read or write, and never a write without the read before it. *)
Theorem run_is_linear (cli : Args) (st : State) :
  ∃ evs, trace (main w cli st).2 = trace st ++ evs ∧ linear (app_name cli) evs.
Proof.
  unfold_main. run. unfold linear.
  split_args cli; try (exists []; rewrite app_nil_r; split; [done|by left]);
    split_world; rewrite <- ?app_assoc; simpl;
    (eexists; split; [reflexivity|]); eauto 15.
Qed.

(** X17. With a selector given, the first of server, database, username
    and password, in that order, that is missing or empty ends the run with
    exit status 2 and the message naming it, before Spark is started:
    nothing is logged and no engine is called. *)
Theorem missing_connection_parameter (cli : Args) (st : State) (name : string)
    (value : option string) :
  compression cli ∈ valid_methods →
  truthy (table cli) || truthy (query cli) = true →
  head (filter (λ p, truthy p.2 = false) (connection_parameters cli)) = Some (name, value) →
  main w cli st = (Raise (SystemExit 2 (missing_parameter_message name)), st).
Proof.
  intros Hc Hsel Hfirst. unfold main, parse_args.
  rewrite bool_decide_eq_true_2 by done. rewrite bind_ret_l.
  assert (Hneg : negb (truthy (table cli)) && negb (truthy (query cli)) = false).
  { destruct (truthy (table cli)), (truthy (query cli)); done. }
  rewrite Hneg. run. revert Hfirst. unfold connection_parameters.
  rewrite !filter_cons, filter_nil. simpl.
  destruct (truthy (server cli)) eqn:E1; simpl.
  2:{ intros [= <- <-]. reflexivity. }
  destruct (truthy (database cli)) eqn:E2; simpl.
  2:{ intros [= <- <-]. reflexivity. }
  destruct (truthy (username cli)) eqn:E3; simpl.
  2:{ intros [= <- <-]. reflexivity. }
  destruct (truthy (password cli)) eqn:E4; simpl.
  2:{ intros [= <- <-]. reflexivity. }
  discriminate.
Qed.

Lemma with_defaults_insert (environ : gmap string string) (flags : Flags) (k v : string) :
  k ∉ ["SQL_SERVER"; "SQL_DATABASE"; "SQL_USERNAME"; "SQL_PASSWORD"] →
  with_defaults (<[k := v]> environ) flags = with_defaults environ flags.
Proof.
  intros Hk. unfold with_defaults, getenv.
  rewrite !lookup_insert_ne; [done|..]; intros ->; apply Hk; set_solver.
Qed.

(** X18. The message of a missing connection parameter advises setting the
    variable named as the parameter in upper case ([SERVER], [DATABASE],
    ...), but the defaults are read from [SQL_SERVER], [SQL_DATABASE],
    [SQL_USERNAME] and [SQL_PASSWORD]: a run that fails with that message
    fails with the same message once the advised variable is set. *)
Theorem advised_variable_is_not_read (environ : gmap string string) (flags : Flags)
    (name v : string) (st : State) :
  name ∈ (connection_parameters (with_defaults environ flags)).*1 →
  ExtractCli.run w environ flags st
  = (Raise (SystemExit 2 (missing_parameter_message name)), st) →
  ExtractCli.run w (<[upper name := v]> environ) flags st
  = (Raise (SystemExit 2 (missing_parameter_message name)), st).
Proof.
  intros Hname Hrun. unfold ExtractCli.run in *.
  rewrite with_defaults_insert; [exact Hrun|].
  simpl in Hname. set_unfold. destruct Hname as [->|[->|[->|[->|[]]]]];
    vm_compute; intros H; repeat (destruct H as [H|H]; [discriminate H|]); exact H.
Qed.

Lemma valid_method_is_lower (c : string) :
  c ∈ valid_methods → bool_decide (lower c ∈ valid_methods) = true.
Proof.
  intros Hc. unfold valid_methods in Hc. set_unfold.
  destruct Hc as [->|[->|[->|[->|[->|[]]]]]]; reflexivity.
Qed.

(** X19. Through [main] the fallback of [save_as_parquet] never fires: the
    codec argparse let through is one of the five, so no warning is logged,
    and any write issued uses the codec, the output path and the mode
    [overwrite] as given. *)
Theorem command_line_never_falls_back (cli : Args) (st : State) :
  warnings (log (main w cli st).2) = warnings (log st)
  ∧ ∃ evs, trace (main w cli st).2 = trace st ++ evs
           ∧ ∀ path codec parts mode d, ParquetWrite path codec parts mode d ∈ evs →
               codec = compression cli ∧ codec ∈ valid_methods
               ∧ path = output_path cli ∧ mode = "overwrite".
Proof.
  unfold_main. run.
  destruct (bool_decide (compression cli ∈ valid_methods)) eqn:Hc; simpl.
  2:{ split; [done|]. exists []. rewrite app_nil_r. split; [done|]. set_solver. }
  apply bool_decide_eq_true_1 in Hc. rewrite (valid_method_is_lower _ Hc).
  destruct (truthy (table cli)), (truthy (query cli)); simpl;
    try (split; [done|]; exists []; rewrite app_nil_r; split; [done|]; set_solver);
    (destruct (truthy (server cli)); simpl;
      [|split; [done|]; exists []; rewrite app_nil_r; split; [done|]; set_solver]);
    (destruct (truthy (database cli)); simpl;
      [|split; [done|]; exists []; rewrite app_nil_r; split; [done|]; set_solver]);
    (destruct (truthy (username cli)); simpl;
      [|split; [done|]; exists []; rewrite app_nil_r; split; [done|]; set_solver]);
    (destruct (truthy (password cli)); simpl;
      [|split; [done|]; exists []; rewrite app_nil_r; split; [done|]; set_solver]);
    split_world;
    (split; [unfold warnings; rewrite ?omap_app; simpl; rewrite ?app_nil_r; done|]);
    rewrite <- ?app_assoc; simpl; (eexists; split; [reflexivity|]);
    intros ? ? ? ? ? Hin; set_unfold;
    repeat (destruct Hin as [Hin|Hin]; [try discriminate Hin|]); try done;
    injection Hin as -> -> -> -> ->; done.
Qed.

(** X20. An extraction run logs at level ERROR exactly when it ends with an
    exception that [except Exception] catches, and then one line, made of
    the fixed prefix and the message of the exception; argument errors
    ([SystemExit]) and runs that return log no error. *)
Theorem extraction_logs_its_error_once (cli : Args) (st : State) :
  errors (log (main w cli st).2)
  = errors (log st)
    ++ match (main w cli st).1 with
       | Raise e =>
           if is_exception e then ["Error during extraction process: " +:+ exn_str e] else []
       | Ok _ => []
       end.
Proof.
  unfold_main. run.
  split_args cli; rewrite ?app_nil_r; try done;
    split_world; unfold errors; rewrite ?omap_app; simpl; rewrite ?app_nil_r; done.
Qed.

(** The resolver identifies a name with itself. *)
Lemma resolver_refl (a : string) : resolver a a = true.
Proof. unfold resolver. by apply bool_decide_eq_true_2. Qed.

Lemma existsb_resolver (cs : list string) (name : string) :
  existsb (λ c, resolver c name) cs = true ↔ ∃ c, c ∈ cs ∧ resolver c name = true.
Proof.
  rewrite existsb_exists. split; intros (c & Hc & Hr); exists c; split; try done.
  - by apply list_elem_of_In.
  - by apply list_elem_of_In.
Qed.

(** What [withColumn] makes of a rectangular frame. *)
Lemma withColumn_frame (df : DataFrame) (name : string) (v : value) :
  rectangular df →
  let d := withColumn df name v in
  rectangular d
  ∧ length (rows d) = length (rows df)
  ∧ ((∀ c, c ∈ columns df → resolver c name = false) →
       columns d = columns df ++ [name] ∧ rows d = (λ r, r ++ [v]) <$> rows df)
  ∧ ((∃ c, c ∈ columns df ∧ resolver c name = true) →
       length (columns d) = length (columns df)
       ∧ ∀ j c, columns df !! j = Some c →
           columns d !! j = Some (if resolver c name then name else c)
           ∧ ∀ i, i < length (rows df) →
               cell d i j = if resolver c name then Some v else cell df i j)
  ∧ name ∈ columns d
  ∧ (∀ c, c ∈ columns d → resolver c name = true → c = name)
  ∧ (∀ i j, i < length (rows d) → columns d !! j = Some name → cell d i j = Some v).
Proof.
  intros Hrect d. subst d. unfold withColumn.
  destruct (existsb (λ c, resolver c name) (columns df)) eqn:E.
  - apply existsb_resolver in E as Hex. cbn [columns rows].
    assert (Hcell : ∀ i j c, i < length (rows df) → columns df !! j = Some c →
              cell {| columns := (λ c, if resolver c name then name else c) <$> columns df;
                      rows := (λ r, zip_with (λ c x, if resolver c name then v else x)
                                      (columns df) r) <$> rows df |} i j
              = if resolver c name then Some v else cell df i j).
    { intros i j c Hi Hj. unfold cell. cbn [rows]. rewrite list_lookup_fmap.
      destruct (lookup_lt_is_Some_2 _ _ Hi) as [r Hr]. unfold row in *. rewrite !Hr. cbn.
      assert (Hlen : length r = length (columns df)).
      { unfold rectangular in Hrect. rewrite Forall_forall in Hrect. apply Hrect.
        by eapply list_elem_of_lookup_2. }
      assert (Hjr : j < length r) by (rewrite Hlen; by eapply lookup_lt_Some).
      destruct (lookup_lt_is_Some_2 _ _ Hjr) as [x Hx].
      rewrite lookup_zip_with, Hj, Hx. cbn. by destruct (resolver c name). }
    split; [|split; [|split; [|split; [|split; [|split]]]]].
    + unfold rectangular. cbn [columns rows]. rewrite Forall_fmap.
      eapply Forall_impl; [exact Hrect|]. intros r Hr. unfold compose. cbn beta in Hr |- *.
      rewrite length_zip_with, length_fmap. lia.
    + by rewrite length_fmap.
    + intros Hno. destruct Hex as (c & Hc & Hr). rewrite (Hno c Hc) in Hr. done.
    + intros _. split; [by rewrite length_fmap|]. intros j c Hj. split.
      * by rewrite list_lookup_fmap, Hj.
      * intros i Hi. by apply Hcell.
    + destruct Hex as (c & Hc & Hr). apply list_elem_of_fmap. exists c.
      rewrite Hr. done.
    + intros c Hc Hr. apply list_elem_of_fmap in Hc as (c0 & -> & Hc0).
      destruct (resolver c0 name) eqn:E0; [done|]. congruence.
    + intros i j Hi Hj. rewrite length_fmap in Hi.
      rewrite list_lookup_fmap in Hj. destruct (columns df !! j) as [c|] eqn:Hc; [|done].
      cbn in Hj. rewrite (Hcell i j c Hi Hc).
      destruct (resolver c name) eqn:E0; [done|].
      injection Hj as ->. by rewrite resolver_refl in E0.
  - assert (Hno : ∀ c, c ∈ columns df → resolver c name = false).
    { intros c Hc. destruct (resolver c name) eqn:Hr; [|done].
      assert (existsb (λ c, resolver c name) (columns df) = true) as Ht
        by (apply existsb_resolver; eauto).
      congruence. }
    cbn [columns rows].
    split; [|split; [|split; [|split; [|split; [|split]]]]].
    + unfold rectangular. cbn [columns rows]. rewrite Forall_fmap.
      eapply Forall_impl; [exact Hrect|]. intros r Hr. unfold compose. cbn beta in Hr |- *.
      rewrite !length_app. cbn. lia.
    + by rewrite length_fmap.
    + done.
    + intros (c & Hc & Hr). rewrite (Hno c Hc) in Hr. done.
    + set_solver.
    + intros c Hc Hr. apply elem_of_app in Hc as [Hc|Hc].
      * rewrite (Hno c Hc) in Hr. done.
      * by apply list_elem_of_singleton in Hc.
    + intros i j Hi Hj. rewrite length_fmap in Hi.
      destruct (lookup_lt_is_Some_2 _ _ Hi) as [r Hr].
      assert (Hlen : length r = length (columns df)).
      { unfold rectangular in Hrect. rewrite Forall_forall in Hrect. apply Hrect.
        by eapply list_elem_of_lookup_2. }
      assert (j = length (columns df)) as ->.
      { destruct (decide (j < length (columns df))) as [Hlt|Hge].
        - rewrite lookup_app_l in Hj by done.
          apply list_elem_of_lookup_2 in Hj. apply Hno in Hj.
          by rewrite resolver_refl in Hj.
        - apply lookup_lt_Some in Hj. rewrite length_app in Hj. cbn in Hj. lia. }
      unfold cell. cbn [rows]. unfold row in *. rewrite list_lookup_fmap, Hr. cbn.
      rewrite lookup_app_r by lia. rewrite Hlen, Nat.sub_diag. done.
Qed.

(** X21. [save_as_parquet] issues exactly one write, in mode [overwrite],
    whether it then fails or not; an empty list of partition columns is no
    partitioning. The frame written has the rows of the input, each with
    the current time under [extraction_timestamp]. When no column of the
    input has that name up to letter case, the column is added last and the
    rows are otherwise unchanged. When some column has, the columns keep
    their number and their places: each such column is renamed to
    [extraction_timestamp] and its values are replaced by the current time,
    and every other column keeps its name and its values. *)
Theorem written_frame_is_the_input_tagged (df : DataFrame) (output_path name : string)
    (partition_columns : option (list string)) (st : State) :
  rectangular df →
  let ts := "extraction_timestamp" in
  let stamp := VText (now w) in
  ∃ codec parts d,
    trace (save_as_parquet w df output_path name partition_columns st).2
    = trace st ++ [ParquetWrite output_path codec parts "overwrite" d]
    ∧ parts = (if truthy_list partition_columns then partition_columns else None)
    ∧ rectangular d
    ∧ length (rows d) = length (rows df)
    ∧ ((∀ c, c ∈ columns df → resolver c ts = false) →
       columns d = columns df ++ [ts] ∧ rows d = (λ r, r ++ [stamp]) <$> rows df)
    ∧ ((∃ c, c ∈ columns df ∧ resolver c ts = true) →
       length (columns d) = length (columns df)
       ∧ ∀ j c, columns df !! j = Some c →
           columns d !! j = Some (if resolver c ts then ts else c)
           ∧ ∀ i, i < length (rows df) →
               cell d i j = if resolver c ts then Some stamp else cell df i j)
    ∧ ts ∈ columns d
    ∧ (∀ c, c ∈ columns d → resolver c ts = true → c = ts)
    ∧ (∀ i j, i < length (rows d) → columns d !! j = Some ts → cell d i j = Some stamp).
Proof.
  intros Hrect ts stamp.
  pose proof (withColumn_frame df ts stamp Hrect) as Hd. cbn zeta in Hd.
  unfold save_as_parquet, write_parquet. run.
  destruct (bool_decide (lower name ∈ valid_methods)); simpl;
    destruct (truthy_list partition_columns); simpl;
    destruct (parquet_error w _ _ _ _); simpl;
    eexists _, _, _; (split; [reflexivity|]); (split; [reflexivity|]); exact Hd.
Qed.

(** X22. A run with a table and no query, the parameters given and the
    engines answering: the session is started, the table is read over JDBC
    with the URL and the properties built from the parameters, the frame
    read is written once, tagged with the extraction time, and the session
    is stopped. *)
Theorem table_run_archives_the_table (cli : Args) (st : State) (src : DataFrame) :
  let url := jdbc_url (default "" (server cli)) (default "" (database cli)) in
  let props := connection_properties (default "" (username cli))
                 (default "" (password cli)) in
  let written := withColumn src "extraction_timestamp" (VText (now w)) in
  let parts := if truthy_list (partition_by cli) then partition_by cli else None in
  compression cli ∈ valid_methods →
  truthy (table cli) = true → truthy (query cli) = false →
  truthy (server cli) = true → truthy (database cli) = true →
  truthy (username cli) = true → truthy (password cli) = true →
  session_error w = None →
  jdbc w url (table cli) props = inl src →
  parquet_error w (output_path cli) (compression cli) parts written = None →
  (main w cli st).1 = Ok tt
  ∧ trace (main w cli st).2
    = trace st ++ [SparkGetOrCreate (app_name cli);
                   JdbcRead url (table cli) props;
                   ParquetWrite (output_path cli) (compression cli) parts "overwrite" written;
                   SparkStop]
  ∧ session_active (main w cli st).2 = false.
Proof.
  intros url props written parts Hc Ht Hq Hs Hd Hu Hp Hsess Hread Hwrite.
  unfold_main. rewrite bool_decide_eq_true_2 by done. run.
  rewrite (valid_method_is_lower _ Hc).
  rewrite Ht, Hq. simpl. run. rewrite Hs, Hd, Hu, Hp. simpl. rewrite Hsess. simpl.
  fold url props. rewrite Hread. simpl. fold written.
  subst parts. destruct (truthy_list (partition_by cli)); simpl;
    rewrite Hwrite; simpl; rewrite <- !app_assoc; done.
Qed.

End Runs.

End ExtractRuns.

(** ** The statements at concrete runs *)

Module RestoreChecks.
Import Restore RestoreSpec RestoreFacts.

(** The state after the reconciliation of an [append] into the existing
    [dbo.orders]. *)
Definition reconciled (w : World) : State :=
  (create_table_if_not_exists w "engine" Demo.orders "orders" None "append"
     (add_log INFO "Beginning data insertion to orders" Demo.destination)).2.

(** [dbo.orders] is there, the policy is [fail]: the [ValueError], and the
    one old row is still the content of the table. *)
Lemma fail_policy_raises_before_insert_witness :
  "orders" ∈ get_table_names Demo.steady None (db Demo.destination)
  ∧ ∃ st', insert_data_to_sql Demo.steady "engine" Demo.orders "orders" None 1000 "fail"
             Demo.destination
           = (Raise (ValueError "Table orders already exists"), st')
           ∧ rows_of st' (resolve Demo.steady None, "orders") = [[VInt 0; VText "old"]].
Proof.
  assert (Hin : "orders" ∈ get_table_names Demo.steady None (db Demo.destination)).
  { apply elem_of_get_table_names. vm_compute. eauto. }
  split; [exact Hin|].
  destruct (fail_policy_raises_before_insert Demo.steady "engine" Demo.orders "orders" None
              1000 Demo.destination Hin) as (st' & Hrun & _ & Hrows & _).
  exists st'. split; [exact Hrun|]. rewrite Hrows. vm_compute. reflexivity.
Defined.

(** Five rows in batches of two, the second call failing: three batches
    were due, and the table holds the old row and the first batch. *)
Lemma insert_in_batches_witness :
  (0 < 2)%Z
  ∧ create_table_if_not_exists Demo.drops_second_call "engine" Demo.orders "orders" None
      "append" (add_log INFO "Beginning data insertion to orders" Demo.destination)
    = (Ok tt, reconciled Demo.drops_second_call)
  ∧ Z.of_nat (length (batches_of Demo.orders 2)) = 3%Z
  ∧ ∃ st2, insert_data_to_sql Demo.drops_second_call "engine" Demo.orders "orders" None 2
             "append" Demo.destination
           = (Raise (DriverError "connection lost"), st2)
           ∧ rows_of st2 (resolve Demo.drops_second_call None, "orders")
             = [[VInt 0; VText "old"]; [VInt 1; VText "a"]; [VInt 2; VText "b"]].
Proof.
  assert (H2 : (0 < 2)%Z) by lia.
  assert (Hc : create_table_if_not_exists Demo.drops_second_call "engine" Demo.orders
                 "orders" None "append"
                 (add_log INFO "Beginning data insertion to orders" Demo.destination)
               = (Ok tt, reconciled Demo.drops_second_call)).
  { vm_compute. reflexivity. }
  split; [exact H2|]. split; [exact Hc|].
  destruct (insert_in_batches Demo.drops_second_call "engine" Demo.orders "orders" None 2
              "append" Demo.destination _ H2 Hc) as (Hlen & _ & _ & _ & _ & Hfail & _).
  split; [rewrite Hlen; reflexivity|].
  destruct (Hfail 1 "connection lost") as (st2 & Hrun & _ & Hrows & Htake).
  - vm_compute. lia.
  - intros j Hj. assert (j = 0) as -> by lia. vm_compute. reflexivity.
  - vm_compute. reflexivity.
  - exists st2. split; [exact Hrun|]. rewrite Hrows, Htake. vm_compute. reflexivity.
Defined.

(** [--if-exists replace --schema dbo] on the existing [dbo.orders]: the
    old row is still there, before the five new ones. *)
Lemma replace_keeps_table_in_named_schema_witness :
  db Demo.destination !! (resolve Demo.steady (Some "dbo"), "orders") = Some Demo.old_orders
  ∧ (0 < 1000)%Z
  ∧ (∀ k, to_sql_error Demo.steady k = None)
  ∧ ∃ st', insert_data_to_sql Demo.steady "engine" Demo.orders "orders" (Some "dbo") 1000
             "replace" Demo.destination = (Ok tt, st')
           ∧ rows_of st' (resolve Demo.steady (Some "dbo"), "orders")
             = [VInt 0; VText "old"] :: rows Demo.orders.
Proof.
  assert (Ht : db Demo.destination !! (resolve Demo.steady (Some "dbo"), "orders")
               = Some Demo.old_orders) by (vm_compute; reflexivity).
  assert (Hb : (0 < 1000)%Z) by lia.
  assert (Hok : ∀ k, to_sql_error Demo.steady k = None) by (intros k; reflexivity).
  split; [exact Ht|]. split; [exact Hb|]. split; [exact Hok|].
  destruct (replace_keeps_table_in_named_schema Demo.steady "engine" Demo.orders "orders"
              "dbo" 1000 Demo.destination Demo.old_orders Ht Hb Hok) as (st' & Hrun & Hdb & _).
  exists st'. split; [exact Hrun|]. unfold rows_of. rewrite Hdb. reflexivity.
Defined.

(** [--batch-size 0] and [--batch-size -5] on an [append]. *)
Lemma nonpositive_batch_size_witness :
  create_table_if_not_exists Demo.steady "engine" Demo.orders "orders" None "append"
    (add_log INFO "Beginning data insertion to orders" Demo.destination)
  = (Ok tt, reconciled Demo.steady)
  ∧ (∃ st2, insert_data_to_sql Demo.steady "engine" Demo.orders "orders" None 0 "append"
              Demo.destination
            = (Raise (ValueError "range() arg 3 must not be zero"), st2)
            ∧ trace st2 = [])
  ∧ (∃ st2, insert_data_to_sql Demo.steady "engine" Demo.orders "orders" None (-5) "append"
              Demo.destination = (Ok tt, st2)
            ∧ trace st2 = []).
Proof.
  assert (Hc : create_table_if_not_exists Demo.steady "engine" Demo.orders "orders" None
                 "append" (add_log INFO "Beginning data insertion to orders" Demo.destination)
               = (Ok tt, reconciled Demo.steady)) by (vm_compute; reflexivity).
  split; [exact Hc|]. split.
  - destruct (proj1 (nonpositive_batch_size Demo.steady "engine" Demo.orders "orders" None 0
                       "append" Demo.destination _ Hc) eq_refl) as (st2 & Hrun & _ & Ht & _).
    exists st2. split; [exact Hrun|]. rewrite Ht. vm_compute. reflexivity.
  - destruct (proj2 (nonpositive_batch_size Demo.steady "engine" Demo.orders "orders" None
                       (-5) "append" Demo.destination _ Hc)) as (st2 & Hrun & _ & _ & Ht & _);
      [lia|].
    exists st2. split; [exact Hrun|]. rewrite Ht. vm_compute. reflexivity.
Defined.

(** [--parquet-path /data/orders --transform-query ...], nothing at the
    path. *)
Lemma transform_query_reads_unchecked_path_witness :
  let cli := Demo.restore_cli "append" (Some "SELECT * FROM parquet_view") in
  path_exists Demo.no_archive (parquet_path cli) = false
  ∧ truthy (transform_query cli) = true
  ∧ if_exists cli ∈ ["fail"; "replace"; "append"]
  ∧ (∃ rest, trace (main Demo.no_archive cli Demo.destination).2
             = trace Demo.destination
               ++ DuckConnect ":memory:"
                  :: DuckExecute (view_statement (parquet_path cli)) :: rest)
  ∧ (∀ msg, (main Demo.no_archive cli Demo.destination).1 ≠ Raise (FileNotFoundError msg)).
Proof.
  intros cli.
  assert (Hp : path_exists Demo.no_archive (parquet_path cli) = false) by reflexivity.
  assert (Hq : truthy (transform_query cli) = true) by reflexivity.
  assert (Hif : if_exists cli ∈ ["fail"; "replace"; "append"]) by (repeat constructor).
  split; [exact Hp|]. split; [exact Hq|]. split; [exact Hif|].
  exact (transform_query_reads_unchecked_path Demo.no_archive cli Demo.destination Hp Hq Hif).
Defined.

(** [--transform-query 'SELEC * FROM parquet_view']: the query does not
    parse. *)
Lemma failed_transform_query_leaves_connection_open_witness :
  let cli := Demo.restore_cli "append" (Some "SELEC * FROM parquet_view") in
  truthy (transform_query cli) = true
  ∧ if_exists cli ∈ ["fail"; "replace"; "append"]
  ∧ duck_execute Demo.rejects_query (view_statement (parquet_path cli)) = inl Demo.orders
  ∧ duck_execute Demo.rejects_query (default "" (transform_query cli))
    = inr "Parser Error: syntax error at or near SELEC"
  ∧ ∃ st', main Demo.rejects_query cli Demo.destination
           = (Raise (DriverError "Parser Error: syntax error at or near SELEC"), st')
           ∧ duck_open st' = 1.
Proof.
  intros cli.
  assert (Hq : truthy (transform_query cli) = true) by reflexivity.
  assert (Hif : if_exists cli ∈ ["fail"; "replace"; "append"]) by (repeat constructor).
  assert (Hv : duck_execute Demo.rejects_query (view_statement (parquet_path cli))
               = inl Demo.orders) by (vm_compute; reflexivity).
  assert (Hx : duck_execute Demo.rejects_query (default "" (transform_query cli))
               = inr "Parser Error: syntax error at or near SELEC")
    by (vm_compute; reflexivity).
  split; [exact Hq|]. split; [exact Hif|]. split; [exact Hv|]. split; [exact Hx|].
  destruct (failed_transform_query_leaves_connection_open Demo.rejects_query cli
              Demo.destination Demo.orders _ Hq Hif Hv Hx) as (st' & Hrun & Ho & _).
  exists st'. split; [exact Hrun|]. rewrite Ho. reflexivity.
Defined.

(** [--if-exists replace], no schema: dropped and created anew. *)
Lemma replace_without_schema_witness :
  "orders" ∈ get_table_names Demo.steady None (db Demo.destination)
  ∧ ∃ st', create_table_if_not_exists Demo.steady "engine" Demo.orders "orders" None
             "replace" Demo.destination = (Ok tt, st')
           ∧ rows_of st' ("dbo", "orders") = []
           ∧ trace st' = [DropTable ("dbo", "orders");
                          CreateTable ("dbo", "orders")
                            [("id", Sql.Integer); ("note", Sql.String 255)]].
Proof.
  assert (Hin : "orders" ∈ get_table_names Demo.steady None (db Demo.destination)).
  { apply elem_of_get_table_names. vm_compute. eauto. }
  split; [exact Hin|].
  destruct (replace_without_schema Demo.steady "engine" Demo.orders "orders"
              Demo.destination Hin) as (st' & Hrun & Hdb & Ht & _).
  exists st'. split; [exact Hrun|]. unfold rows_of. rewrite Hdb, Ht.
  split; vm_compute; reflexivity.
Defined.


(** No transformation query, nothing at the path. *)
Lemma missing_path_without_query_witness :
  let cli := Demo.restore_cli "append" None in
  path_exists Demo.no_archive (parquet_path cli) = false
  ∧ truthy (transform_query cli) = false
  ∧ if_exists cli ∈ ["fail"; "replace"; "append"]
  ∧ (main Demo.no_archive cli Demo.destination).1
    = Raise (FileNotFoundError "Parquet path not found: /data/orders")
  ∧ trace (main Demo.no_archive cli Demo.destination).2 = [].
Proof.
  intros cli.
  assert (Hp : path_exists Demo.no_archive (parquet_path cli) = false) by reflexivity.
  assert (Hq : truthy (transform_query cli) = false) by reflexivity.
  assert (Hif : if_exists cli ∈ ["fail"; "replace"; "append"]) by (repeat constructor).
  split; [exact Hp|]. split; [exact Hq|]. split; [exact Hif|].
  destruct (missing_path_without_query Demo.no_archive cli Demo.destination Hp Hq Hif)
    as (Hr & Ht & _).
  split; [exact Hr|exact Ht].
Defined.

End RestoreChecks.

Module ExtractChecks.
Import Extract ExtractSpec ExtractFacts.

(** A run given both [--table orders] and [--query ...]. *)
Definition both_selectors : Args :=
  Demo.extract_cli (Some "orders") (Some "SELECT id FROM orders").

(** C1 as stated fails: with both selectors the run is not refused. It
    starts Spark, reads with the query, writes the archive and returns. *)
Lemma both_selectors_accepted :
  truthy (table both_selectors) = true
  ∧ truthy (query both_selectors) = true
  ∧ (main Demo.reachable both_selectors Demo.fresh).1 = Ok tt
  ∧ trace (main Demo.reachable both_selectors Demo.fresh).2
    = [SparkGetOrCreate "SQL-to-Parquet";
       JdbcRead (jdbc_url "db1" "sales") (Some "(SELECT id FROM orders) AS custom_query")
         (connection_properties "etl" "secret");
       ParquetWrite "/out" "snappy" None "overwrite"
         (withColumn Demo.source "extraction_timestamp" (VText "2024-01-01 00:00:00"));
       SparkStop].
Proof. repeat split; vm_compute; reflexivity. Qed.

(** Neither selector: refused, nothing issued. Both: not refused. *)
Lemma selector_validation_witness :
  compression both_selectors ∈ valid_methods
  ∧ main Demo.reachable (Demo.extract_cli None None) Demo.fresh
    = (Raise (SystemExit 2 "Either --table or --query must be specified"), Demo.fresh)
  ∧ (∀ status msg,
       (main Demo.reachable both_selectors Demo.fresh).1 ≠ Raise (SystemExit status msg)).
Proof.
  assert (Hc : compression both_selectors ∈ valid_methods) by constructor.
  split; [exact Hc|]. split.
  - apply (proj1 (selector_validation Demo.reachable (Demo.extract_cli None None)
                    Demo.fresh Hc)); reflexivity.
  - apply (proj2 (selector_validation Demo.reachable both_selectors Demo.fresh Hc));
      reflexivity.
Defined.

(** [brotli] is not among the five: one write, with [snappy], and the
    warning; the engine takes it and the call returns. [GZIP] is [gzip] in
    lower case: it is passed on as given, without a warning. *)
Lemma unrecognized_codec_falls_back_witness :
  ((save_as_parquet Demo.reachable Demo.source "/out" "brotli" None Demo.fresh).1 = Ok tt
   ∧ trace (save_as_parquet Demo.reachable Demo.source "/out" "brotli" None Demo.fresh).2
     = [ParquetWrite "/out" "snappy" None "overwrite"
          {| columns := ["id"; "extraction_timestamp"];
             rows := [[VInt 1; VText "2024-01-01 00:00:00"];
                      [VInt 2; VText "2024-01-01 00:00:00"]] |}]
   ∧ warnings (log (save_as_parquet Demo.reachable Demo.source "/out" "brotli" None
                      Demo.fresh).2)
     = ["Invalid compression method: brotli. Using snappy instead."])
  ∧ (trace (save_as_parquet Demo.reachable Demo.source "/out" "GZIP" None Demo.fresh).2
     = [ParquetWrite "/out" "GZIP" None "overwrite"
          {| columns := ["id"; "extraction_timestamp"];
             rows := [[VInt 1; VText "2024-01-01 00:00:00"];
                      [VInt 2; VText "2024-01-01 00:00:00"]] |}]
     ∧ warnings (log (save_as_parquet Demo.reachable Demo.source "/out" "GZIP" None
                        Demo.fresh).2) = []).
Proof.
  pose proof (unrecognized_codec_falls_back Demo.reachable Demo.source "/out" "brotli" None
                Demo.fresh) as Hb.
  pose proof (unrecognized_codec_falls_back Demo.reachable Demo.source "/out" "GZIP" None
                Demo.fresh) as Hg.
  cbn zeta in Hb, Hg.
  destruct Hb as (Hbt & Hbw & Hbr & _). destruct Hg as (Hgt & Hgw & _).
  split; [split; [|split]|split].
  - rewrite Hbr. reflexivity.
  - rewrite Hbt. reflexivity.
  - rewrite Hbw. reflexivity.
  - rewrite Hgt. reflexivity.
  - rewrite Hgw. reflexivity.
Defined.

(** [lzo] is one of the five, and the engine has no LZO codec: the write is
    issued with [lzo], no warning is logged, and the call fails with the
    engine's error. *)
Lemma recognized_codec_can_fail :
  lower "lzo" ∈ ["snappy"; "gzip"; "lzo"; "zstd"; "none"]
  ∧ (save_as_parquet Demo.refuses_lzo Demo.source "/out" "lzo" None Demo.fresh).1
    = Raise (DriverError "Class com.hadoop.compression.lzo.LzoCodec not found")
  ∧ trace (save_as_parquet Demo.refuses_lzo Demo.source "/out" "lzo" None Demo.fresh).2
    = [ParquetWrite "/out" "lzo" None "overwrite"
         {| columns := ["id"; "extraction_timestamp"];
            rows := [[VInt 1; VText "2024-01-01 00:00:00"];
                     [VInt 2; VText "2024-01-01 00:00:00"]] |}]
  ∧ warnings (log (save_as_parquet Demo.refuses_lzo Demo.source "/out" "lzo" None
                     Demo.fresh).2) = [].
Proof.
  split; [by repeat constructor|]. split; [|split]; vm_compute; reflexivity.
Defined.

(** A table name and a query: the read is the query's. *)
Lemma query_takes_precedence_witness :
  "SELECT id FROM orders" ≠ ""
  ∧ trace (extract_from_sql_server Demo.reachable "db1" "sales" (Some "orders") "etl" "secret"
             (Some "SELECT id FROM orders") Demo.fresh).2
    = [JdbcRead (jdbc_url "db1" "sales") (Some "(SELECT id FROM orders) AS custom_query")
         (connection_properties "etl" "secret")].
Proof.
  assert (Hq : "SELECT id FROM orders" ≠ "") by discriminate.
  split; [exact Hq|].
  exact (proj1 (query_takes_precedence Demo.reachable "db1" "sales" (Some "orders") "etl"
                  "secret" "SELECT id FROM orders" Demo.fresh Hq)).
Defined.

(** The source refuses the connection: the session was started, and is
    stopped. *)
Lemma main_stops_session_witness :
  session_active Demo.fresh = false
  ∧ session_active (main Demo.source_down both_selectors Demo.fresh).2 = false
  ∧ trace (main Demo.source_down both_selectors Demo.fresh).2
    = [SparkGetOrCreate "SQL-to-Parquet";
       JdbcRead (jdbc_url "db1" "sales") (Some "(SELECT id FROM orders) AS custom_query")
         (connection_properties "etl" "secret");
       SparkStop].
Proof.
  assert (Hs : session_active Demo.fresh = false) by reflexivity.
  split; [exact Hs|]. split.
  - exact (main_stops_session Demo.source_down both_selectors Demo.fresh Hs).
  - vm_compute. reflexivity.
Defined.

End ExtractChecks.

Module RestoreRunChecks.
Import Py Restore RestoreSpec RestoreFacts RestoreRuns.

(** [orders] appended into the destination that also has [dbo.customers]:
    the two customers are still there. *)
Lemma insert_keeps_other_tables_witness :
  ("dbo", "customers") ≠ (resolve Demo.steady None, "orders")
  ∧ db (insert_data_to_sql Demo.steady "engine" Demo.orders "orders" None 2 "append"
          Demo.two_tables).2 !! ("dbo", "customers")
    = Some Demo.customers.
Proof.
  assert (Hne : ("dbo", "customers") ≠ (resolve Demo.steady None, "orders")).
  { vm_compute. discriminate. }
  split; [exact Hne|].
  rewrite (insert_keeps_other_tables Demo.steady "engine" Demo.orders "orders" None 2
             "append" Demo.two_tables _ Hne).
  vm_compute. reflexivity.
Defined.

(** [orders] restored into the empty destination under the policy [fail],
    two rows at a time: one create, three inserts. *)
Lemma absent_table_is_created_and_filled_witness :
  ("orders" ∉ get_table_names Demo.steady None (db Demo.empty_destination))
  ∧ (0 < 2)%Z
  ∧ (∀ k, to_sql_error Demo.steady k = None)
  ∧ ∃ st', insert_data_to_sql Demo.steady "engine" Demo.orders "orders" None 2 "fail"
             Demo.empty_destination = (Ok tt, st')
           ∧ rows_of st' ("dbo", "orders") = rows Demo.orders
           ∧ length (trace st') = 4.
Proof.
  assert (Hout : "orders" ∉ get_table_names Demo.steady None (db Demo.empty_destination)).
  { rewrite elem_of_get_table_names. vm_compute. intros [t Ht]. discriminate Ht. }
  assert (Hb : (0 < 2)%Z) by lia.
  assert (Hok : ∀ k, to_sql_error Demo.steady k = None) by (intros k; reflexivity).
  split; [exact Hout|]. split; [exact Hb|]. split; [exact Hok|].
  destruct (absent_table_is_created_and_filled Demo.steady "engine" Demo.orders "orders"
              None 2 "fail" Demo.empty_destination Hout Hb Hok)
    as (st' & Hrun & Hdb & Htr & _).
  exists st'. split; [exact Hrun|]. split.
  - unfold rows_of. rewrite Hdb. vm_compute. reflexivity.
  - rewrite Htr. vm_compute. reflexivity.
Defined.

(** [orders] appended to the existing [dbo.orders]: the old row first, then
    the five; appended again, the five come twice. *)
Lemma append_policy_appends_witness :
  db Demo.destination !! (resolve Demo.steady None, "orders") = Some Demo.old_orders
  ∧ "append" ≠ "fail" ∧ "append" ≠ "replace"
  ∧ (0 < 1000)%Z
  ∧ (∀ k, to_sql_error Demo.steady k = None)
  ∧ ∃ st', insert_data_to_sql Demo.steady "engine" Demo.orders "orders" None 1000 "append"
             Demo.destination = (Ok tt, st')
           ∧ rows_of st' ("dbo", "orders") = [VInt 0; VText "old"] :: rows Demo.orders
           ∧ length (rows_of (insert_data_to_sql Demo.steady "engine" Demo.orders "orders"
                                None 1000 "append" st').2 ("dbo", "orders")) = 11.
Proof.
  assert (Ht : db Demo.destination !! (resolve Demo.steady None, "orders")
               = Some Demo.old_orders) by (vm_compute; reflexivity).
  assert (Hf : "append" ≠ "fail") by discriminate.
  assert (Hr : "append" ≠ "replace") by discriminate.
  assert (Hb : (0 < 1000)%Z) by lia.
  assert (Hok : ∀ k, to_sql_error Demo.steady k = None) by (intros k; reflexivity).
  split; [exact Ht|]. split; [exact Hf|]. split; [exact Hr|]. split; [exact Hb|].
  split; [exact Hok|].
  destruct (append_policy_appends Demo.steady "engine" Demo.orders "orders" None 1000
              "append" Demo.destination Demo.old_orders Ht Hf Hr Hb Hok)
    as (st' & Hrun & Hdb & _ & Hagain).
  exists st'. split; [exact Hrun|]. split.
  - unfold rows_of. rewrite Hdb. vm_compute. reflexivity.
  - change ("dbo", "orders") with (resolve Demo.steady None, "orders").
    rewrite Hagain. reflexivity.
Defined.

(** [--if-exists replace] on the existing [dbo.orders]: the old row is
    gone, the table holds the five rows. *)
Lemma replace_fills_anew_witness :
  (0 < 1000)%Z
  ∧ (∀ k, to_sql_error Demo.steady k = None)
  ∧ ∃ st', insert_data_to_sql Demo.steady "engine" Demo.orders "orders" None 1000 "replace"
             Demo.destination = (Ok tt, st')
           ∧ rows_of st' ("dbo", "orders") = rows Demo.orders.
Proof.
  assert (Hb : (0 < 1000)%Z) by lia.
  assert (Hok : ∀ k, to_sql_error Demo.steady k = None) by (intros k; reflexivity).
  split; [exact Hb|]. split; [exact Hok|].
  destruct (replace_fills_anew Demo.steady "engine" Demo.orders "orders" 1000
              Demo.destination Hb Hok) as (st' & Hrun & Hdb & _).
  exists st'. split; [exact Hrun|]. unfold rows_of. rewrite Hdb. vm_compute. reflexivity.
Defined.

(** An archive without rows and a batch size of -3: the table is created,
    empty, and the writer returns. *)
Lemma empty_frame_creates_empty_table_witness :
  rows Demo.no_orders = []
  ∧ (-3 ≠ 0)%Z
  ∧ ("orders" ∉ get_table_names Demo.steady None (db Demo.empty_destination))
  ∧ ∃ st', insert_data_to_sql Demo.steady "engine" Demo.no_orders "orders" None (-3)
             "append" Demo.empty_destination = (Ok tt, st')
           ∧ db st' !! ("dbo", "orders")
             = Some {| t_columns := [("id", Sql.Integer); ("note", Sql.String 255)];
                       t_rows := [] |}.
Proof.
  assert (Hrows : rows Demo.no_orders = []) by reflexivity.
  assert (Hb : (-3 ≠ 0)%Z) by lia.
  assert (Hout : "orders" ∉ get_table_names Demo.steady None (db Demo.empty_destination)).
  { rewrite elem_of_get_table_names. vm_compute. intros [t Ht]. discriminate Ht. }
  split; [exact Hrows|]. split; [exact Hb|]. split; [exact Hout|].
  destruct (empty_frame_creates_empty_table Demo.steady "engine" Demo.no_orders "orders"
              None (-3) "append" Demo.empty_destination Hrows Hb Hout)
    as (st' & Hrun & Hdb & _).
  exists st'. split; [exact Hrun|]. rewrite Hdb. vm_compute. reflexivity.
Defined.

(** The state after the reconciliation of a restore into the empty
    destination. *)
Definition created : State :=
  (create_table_if_not_exists Demo.steady "engine" Demo.orders "orders" None "fail"
     (add_log INFO "Beginning data insertion to orders" Demo.empty_destination)).2.

(** Five rows, two at a time: three progress lines, the last for rows 4
    to 5. *)
Lemma progress_numbers_the_batches_witness :
  (0 < 2)%Z
  ∧ (∀ k, to_sql_error Demo.steady k = None)
  ∧ create_table_if_not_exists Demo.steady "engine" Demo.orders "orders" None "fail"
      (add_log INFO "Beginning data insertion to orders" Demo.empty_destination)
    = (Ok tt, created)
  ∧ ∃ st2, insert_data_to_sql Demo.steady "engine" Demo.orders "orders" None 2 "fail"
             Demo.empty_destination = (Ok tt, st2)
           ∧ log st2
             = log created
               ++ [(INFO, "Preparing to insert 5 rows");
                   (INFO, "Inserting batch 1/3: rows 0 to 2");
                   (INFO, "Inserting batch 2/3: rows 2 to 4");
                   (INFO, "Inserting batch 3/3: rows 4 to 5");
                   (INFO, "Successfully inserted 5 rows into orders")].
Proof.
  assert (Hb : (0 < 2)%Z) by lia.
  assert (Hok : ∀ k, to_sql_error Demo.steady k = None) by (intros k; reflexivity).
  assert (Hc : create_table_if_not_exists Demo.steady "engine" Demo.orders "orders" None
                 "fail" (add_log INFO "Beginning data insertion to orders"
                           Demo.empty_destination)
               = (Ok tt, created)) by (vm_compute; reflexivity).
  split; [exact Hb|]. split; [exact Hok|]. split; [exact Hc|].
  destruct (progress_numbers_the_batches Demo.steady "engine" Demo.orders "orders" None 2
              "fail" Demo.empty_destination created Hb Hok Hc) as (st2 & Hrun & Hlog).
  exists st2. split; [exact Hrun|]. rewrite Hlog. f_equal.
Defined.

(** A run with [--transform-query] into the empty destination: the five
    rows arrive and no DuckDB connection is left open. *)
Lemma run_restores_the_query_result_witness :
  truthy (transform_query Demo.query_cli) = true
  ∧ if_exists Demo.query_cli ∈ ["fail"; "replace"; "append"]
  ∧ duck_execute Demo.steady (view_statement (parquet_path Demo.query_cli)) = inl Demo.orders
  ∧ duck_execute Demo.steady (default "" (transform_query Demo.query_cli)) = inl Demo.orders
  ∧ (table_name Demo.query_cli ∉ get_table_names Demo.steady (schema Demo.query_cli) (db Demo.empty_destination))
  ∧ (0 < batch_size Demo.query_cli)%Z
  ∧ (∀ k, to_sql_error Demo.steady k = None)
  ∧ ∃ st', main Demo.steady Demo.query_cli Demo.empty_destination = (Ok tt, st')
           ∧ rows_of st' ("dbo", "orders") = rows Demo.orders
           ∧ duck_open st' = 0.
Proof.
  assert (Hq : truthy (transform_query Demo.query_cli) = true) by reflexivity.
  assert (Hp : if_exists Demo.query_cli ∈ ["fail"; "replace"; "append"]).
  { by repeat constructor. }
  assert (Hv : duck_execute Demo.steady (view_statement (parquet_path Demo.query_cli))
               = inl Demo.orders) by reflexivity.
  assert (Hd : duck_execute Demo.steady (default "" (transform_query Demo.query_cli))
               = inl Demo.orders) by reflexivity.
  assert (Hout : table_name Demo.query_cli
                 ∉ get_table_names Demo.steady (schema Demo.query_cli) (db Demo.empty_destination)).
  { rewrite elem_of_get_table_names. vm_compute. intros [t Ht]. discriminate Ht. }
  assert (Hb : (0 < batch_size Demo.query_cli)%Z) by (vm_compute; reflexivity).
  assert (Hok : ∀ k, to_sql_error Demo.steady k = None) by (intros k; reflexivity).
  do 7 (split; [assumption|]).
  destruct (run_restores_the_query_result Demo.steady Demo.query_cli Demo.empty_destination
              Demo.orders Demo.orders Hq Hp Hv Hd Hout Hb Hok)
    as (st' & Hrun & Hdb & Hopen & _).
  exists st'. split; [exact Hrun|]. split.
  - unfold rows_of. rewrite Hdb. vm_compute. reflexivity.
  - rewrite Hopen. reflexivity.
Defined.

(** A run without a transformation query into the empty destination. *)
Lemma run_restores_the_archive_witness :
  truthy (transform_query Demo.archive_cli) = false
  ∧ if_exists Demo.archive_cli ∈ ["fail"; "replace"; "append"]
  ∧ path_exists Demo.steady (parquet_path Demo.archive_cli) = true
  ∧ duck_execute Demo.steady
      ("SELECT * FROM read_parquet('" +:+ parquet_path Demo.archive_cli +:+ "')") = inl Demo.orders
  ∧ (table_name Demo.archive_cli ∉ get_table_names Demo.steady (schema Demo.archive_cli) (db Demo.empty_destination))
  ∧ (0 < batch_size Demo.archive_cli)%Z
  ∧ (∀ k, to_sql_error Demo.steady k = None)
  ∧ ∃ st', main Demo.steady Demo.archive_cli Demo.empty_destination = (Ok tt, st')
           ∧ rows_of st' ("dbo", "orders") = rows Demo.orders
           ∧ length (trace st') = 5.
Proof.
  assert (Hq : truthy (transform_query Demo.archive_cli) = false) by reflexivity.
  assert (Hp : if_exists Demo.archive_cli ∈ ["fail"; "replace"; "append"]).
  { by repeat constructor. }
  assert (He : path_exists Demo.steady (parquet_path Demo.archive_cli) = true) by reflexivity.
  assert (Hd : duck_execute Demo.steady
                 ("SELECT * FROM read_parquet('" +:+ parquet_path Demo.archive_cli +:+ "')")
               = inl Demo.orders) by reflexivity.
  assert (Hout : table_name Demo.archive_cli
                 ∉ get_table_names Demo.steady (schema Demo.archive_cli) (db Demo.empty_destination)).
  { rewrite elem_of_get_table_names. vm_compute. intros [t Ht]. discriminate Ht. }
  assert (Hb : (0 < batch_size Demo.archive_cli)%Z) by (vm_compute; reflexivity).
  assert (Hok : ∀ k, to_sql_error Demo.steady k = None) by (intros k; reflexivity).
  do 7 (split; [assumption|]).
  destruct (run_restores_the_archive Demo.steady Demo.archive_cli Demo.empty_destination
              Demo.orders Hq Hp He Hd Hout Hb Hok)
    as (st' & Hrun & Hdb & _ & Htr).
  exists st'. split; [exact Hrun|]. split.
  - unfold rows_of. rewrite Hdb. vm_compute. reflexivity.
  - rewrite Htr. vm_compute. reflexivity.
Defined.

End RestoreRunChecks.

Module ExtractRunChecks.
Import Py Extract ExtractCli ExtractSpec ExtractFacts ExtractRuns.

(** No [--server] and no [SQL_SERVER]: the run stops on the server, the
    first of the four, with nothing started. *)
Lemma missing_connection_parameter_witness :
  compression (with_defaults Demo.environ Demo.flags_without_server) ∈ valid_methods
  ∧ truthy (table (with_defaults Demo.environ Demo.flags_without_server))
    || truthy (query (with_defaults Demo.environ Demo.flags_without_server)) = true
  ∧ head (filter (λ p, truthy p.2 = false)
            (connection_parameters (with_defaults Demo.environ Demo.flags_without_server)))
    = Some ("server", None)
  ∧ main Demo.reachable (with_defaults Demo.environ Demo.flags_without_server) Demo.fresh
    = (Raise (SystemExit 2 "Missing SQL Server parameter: server. Provide it with --server or set SERVER in .env file"),
       Demo.fresh).
Proof.
  assert (Hc : compression (with_defaults Demo.environ Demo.flags_without_server)
               ∈ valid_methods) by (by repeat constructor).
  assert (Hs : truthy (table (with_defaults Demo.environ Demo.flags_without_server))
               || truthy (query (with_defaults Demo.environ Demo.flags_without_server))
               = true) by reflexivity.
  assert (Hm : head (filter (λ p, truthy p.2 = false)
                       (connection_parameters
                          (with_defaults Demo.environ Demo.flags_without_server)))
               = Some ("server", None)) by (vm_compute; reflexivity).
  split; [exact Hc|]. split; [exact Hs|]. split; [exact Hm|].
  exact (missing_connection_parameter Demo.reachable _ Demo.fresh "server" None Hc Hs Hm).
Defined.

(** The same run once [SERVER] is set, as the message advises: the same
    failure. With [SQL_SERVER] set the run goes through. *)
Lemma advised_variable_is_not_read_witness :
  "server" ∈ (connection_parameters
                (with_defaults Demo.environ Demo.flags_without_server)).*1
  ∧ ExtractCli.run Demo.reachable Demo.environ Demo.flags_without_server Demo.fresh
    = (Raise (SystemExit 2 (missing_parameter_message "server")), Demo.fresh)
  ∧ ExtractCli.run Demo.reachable (<["SERVER" := "db1"]> Demo.environ)
      Demo.flags_without_server Demo.fresh
    = (Raise (SystemExit 2 (missing_parameter_message "server")), Demo.fresh)
  ∧ (ExtractCli.run Demo.reachable (<["SQL_SERVER" := "db1"]> Demo.environ)
       Demo.flags_without_server Demo.fresh).1 = Ok tt.
Proof.
  assert (Hin : "server" ∈ (connection_parameters
                              (with_defaults Demo.environ Demo.flags_without_server)).*1)
    by (by repeat constructor).
  assert (Hrun : ExtractCli.run Demo.reachable Demo.environ Demo.flags_without_server
                   Demo.fresh
                 = (Raise (SystemExit 2 (missing_parameter_message "server")), Demo.fresh))
    by (vm_compute; reflexivity).
  split; [exact Hin|]. split; [exact Hrun|]. split.
  - exact (advised_variable_is_not_read Demo.reachable Demo.environ
             Demo.flags_without_server "server" "db1" Demo.fresh Hin Hrun).
  - vm_compute. reflexivity.
Defined.

(** [--table orders --output-path /out] against the reachable source: four
    engine calls, the write carrying the two rows with their timestamp. *)
Lemma table_run_archives_the_table_witness :
  compression (Demo.extract_cli (Some "orders") None) ∈ valid_methods
  ∧ session_error Demo.reachable = None
  ∧ (main Demo.reachable (Demo.extract_cli (Some "orders") None) Demo.fresh).1 = Ok tt
  ∧ trace (main Demo.reachable (Demo.extract_cli (Some "orders") None) Demo.fresh).2
    = [SparkGetOrCreate "SQL-to-Parquet";
       JdbcRead (jdbc_url "db1" "sales") (Some "orders") (connection_properties "etl" "secret");
       ParquetWrite "/out" "snappy" None "overwrite"
         {| columns := ["id"; "extraction_timestamp"];
            rows := [[VInt 1; VText "2024-01-01 00:00:00"];
                     [VInt 2; VText "2024-01-01 00:00:00"]] |};
       SparkStop].
Proof.
  assert (Hc : compression (Demo.extract_cli (Some "orders") None) ∈ valid_methods)
    by (by repeat constructor).
  assert (Hs : session_error Demo.reachable = None) by reflexivity.
  split; [exact Hc|]. split; [exact Hs|].
  destruct (table_run_archives_the_table Demo.reachable
              (Demo.extract_cli (Some "orders") None) Demo.fresh Demo.source
              Hc eq_refl eq_refl eq_refl eq_refl eq_refl eq_refl Hs eq_refl eq_refl)
    as (Hres & Htr & _).
  split; [exact Hres|]. rewrite Htr. reflexivity.
Defined.

(** The source has a column [Extraction_Timestamp]: the frame written still
    has two columns, the second now called [extraction_timestamp] and
    holding the time of the run, the first as it was. *)
Lemma written_frame_is_the_input_tagged_witness :
  rectangular Demo.stamped_source
  ∧ ∃ codec parts d,
      trace (save_as_parquet Demo.reachable Demo.stamped_source "/out" "snappy" None
               Demo.fresh).2
      = [ParquetWrite "/out" codec parts "overwrite" d]
      ∧ length (columns d) = 2
      ∧ columns d !! 0 = Some "id"
      ∧ columns d !! 1 = Some "extraction_timestamp"
      ∧ cell d 0 0 = Some (VInt 1)
      ∧ cell d 0 1 = Some (VText "2024-01-01 00:00:00")
      ∧ cell d 1 1 = Some (VText "2024-01-01 00:00:00").
Proof.
  assert (Hrect : rectangular Demo.stamped_source) by (by repeat constructor).
  split; [exact Hrect|].
  destruct (written_frame_is_the_input_tagged Demo.reachable Demo.stamped_source "/out"
              "snappy" None Demo.fresh Hrect)
    as (codec & parts & d & Htr & _ & _ & _ & _ & Hin & _).
  exists codec, parts, d. split; [exact Htr|].
  destruct Hin as (Hlen & Hcols).
  { exists "Extraction_Timestamp". split; [by repeat constructor|reflexivity]. }
  destruct (Hcols 0 "id" eq_refl) as (Hc0 & Hv0).
  destruct (Hcols 1 "Extraction_Timestamp" eq_refl) as (Hc1 & Hv1).
  split; [exact Hlen|]. split; [exact Hc0|]. split; [exact Hc1|].
  split; [|split].
  - rewrite (Hv0 0) by (simpl; lia). reflexivity.
  - rewrite (Hv1 0) by (simpl; lia). reflexivity.
  - rewrite (Hv1 1) by (simpl; lia). reflexivity.
Defined.

End ExtractRunChecks.
